(** * groq-prompt: the model-fallback endpoint of [netlify/functions/ai.ts]

    A shallow embedding of the serverless function: the recursive
    [generateWithFallback] orchestrator and the HTTP [handler] around it.

    The provider client ([groq.chat.completions.create]) and [JSON.parse]
    belong to the runtime, not to this file of the repository; they are
    section variables, so every theorem holds for any behaviour they have.
    The provider call is a state transformer over an abstract [World], which
    lets its answer depend on everything that happened before.

    JavaScript numbers are modelled by [Z]: the only numbers the code
    inspects are HTTP status codes and the attempt index. *)

From Equations Require Import Equations.
From Stdlib Require Import List String Ascii ZArith QArith Bool Arith Lia.
Import ListNotations.

Set Warnings "-register-all".

Close Scope Q_scope.
Local Open Scope list_scope.
Local Open Scope string_scope.

(** ** JavaScript values *)

(** The values [JSON.parse] can return, and [undefined], which is what
    reading a missing property gives. An object is the list of its own
    properties. *)
Inductive JsValue : Type :=
| JUndefined
| JNull
| JBool (b : bool)
| JNum (z : Z)
| JStr (s : string)
| JArr (items : list JsValue)
| JObj (props : list (string * JsValue)).

(** ToBoolean: [undefined], [null], [false], [0] and the empty string are
    falsy; every object and array is truthy. *)
Definition truthy (v : JsValue) : bool :=
  match v with
  | JUndefined | JNull => false
  | JBool b => b
  | JNum z => negb (z =? 0)%Z
  | JStr s => negb (s =? EmptyString)
  | JArr _ | JObj _ => true
  end.

(** Own-property lookup in an object's property list (the names of an
    object's properties are distinct). *)
Fixpoint lookup (key : string) (props : list (string * JsValue)) : option JsValue :=
  match props with
  | [] => None
  | (k, v) :: rest => if k =? key then Some v else lookup key rest
  end.

(** ** Errors

    What the code reads of a thrown error: [error.status],
    [error.statusCode] and [error.message]. [None] is an absent
    ([undefined]) property. *)
Record JsError : Type := mkError {
  err_status : option Z;
  err_statusCode : option Z;
  err_message : option string
}.

(** [new Error(message)]: a message and no status. *)
Definition new_Error (message : string) : JsError :=
  mkError None None (Some message).

(** [a || b] where [a] is a number or [undefined] and [b] a number. *)
Definition num_or (a : option Z) (b : Z) : Z :=
  match a with
  | Some z => if (z =? 0)%Z then b else z
  | None => b
  end.

(** [a || b] where [a] is a string or [undefined] and [b] a string. *)
Definition str_or (a : option string) (b : string) : string :=
  match a with
  | Some s => if s =? EmptyString then b else s
  | None => b
  end.

(** [const status = error.status || error.statusCode || 500;] *)
Definition error_status (error : JsError) : Z :=
  num_or (err_status error) (num_or (err_statusCode error) 500%Z).

(** The condition of the switch:
    [status === 429 || status === 404 || status === 400 ||
     (status >= 500 && status < 600)]. *)
Definition retryable (status : Z) : bool :=
  ((status =? 429) || (status =? 404) || (status =? 400) ||
   ((500 <=? status) && (status <? 600)))%Z.

(** ** Provider requests and completions *)

Record ChatMessage : Type := mkMessage {
  role : string;
  msg_content : JsValue
}.

Record CompletionRequest : Type := mkRequest {
  messages : list ChatMessage;
  model : string;
  temperature : Q;
  max_tokens : Z
}.

Record CompletionMessage : Type := mkCompletionMessage {
  content : option string
}.

Record Choice : Type := mkChoice {
  choice_message : option CompletionMessage
}.

Record ChatCompletion : Type := mkCompletion {
  choices : list Choice
}.

(** [chatCompletion.choices[0]?.message?.content || ""] *)
Definition completion_text (chatCompletion : ChatCompletion) : string :=
  str_or
    match hd_error (choices chatCompletion) with
    | None => None
    | Some choice =>
        match choice_message choice with
        | None => None
        | Some m => content m
        end
    end
    EmptyString.

(** The object [generateWithFallback] resolves to. *)
Record Generation : Type := mkGeneration {
  result : string;
  used_model : string
}.

(** The request built for one attempt. *)
Definition completion_request (prompt : JsValue) (currentModel : string)
  : CompletionRequest :=
  {| messages := [ {| role := "user"; msg_content := prompt |} ];
     model := currentModel;
     temperature := (8 # 10)%Q;
     max_tokens := 4096 |}.

(** ** Effects

    The observable actions of a run, in the order they happen: console
    output (kept as data, not as formatted text) and calls to the
    provider. *)
Inductive Event : Type :=
| LogAttempt (attempt total : nat) (currentModel : string)
| CreateCall (request : CompletionRequest)
| WarnFail (currentModel : string) (status : Z) (message : option string)
| LogSwitching
| ErrorCritical (error : JsError).

Inductive Outcome (A : Type) : Type :=
| Returned (a : A)
| Thrown (error : JsError).
Arguments Returned {A} a.
Arguments Thrown {A} error.

(** Priority queue of models. *)
Definition MODELS : list string :=
  [ "openai/gpt-oss-120b";
    "openai/gpt-oss-20b";
    "llama-3.3-70b-versatile";
    "llama-3.1-8b-instant" ].

Definition exhaustion_message : string :=
  "All AI models failed due to rate limits, server errors, or invalid model names.".

(** ** The effect monad *)

Section Effects.

Context {World : Type}.

Record State : Type := mkState {
  world : World;
  trace : list Event
}.

(** A computation that may throw, over the world and the trace. *)
Definition M (A : Type) : Type := State -> Outcome A * State.

Definition ret {A} (a : A) : M A := fun st => (Returned a, st).

Definition throw {A} (error : JsError) : M A := fun st => (Thrown error, st).

Definition bind {A B} (m : M A) (k : A -> M B) : M B :=
  fun st =>
    match m st with
    | (Returned a, st') => k a st'
    | (Thrown error, st') => (Thrown error, st')
    end.

(** [try { body } catch (error) { handle error }] *)
Definition try_catch {A} (body : M A) (handle : JsError -> M A) : M A :=
  fun st =>
    match body st with
    | (Returned a, st') => (Returned a, st')
    | (Thrown error, st') => handle error st'
    end.

Definition emit (ev : Event) : M unit :=
  fun st => (Returned tt, mkState (world st) (trace st ++ [ev])%list).

End Effects.

Arguments State World : clear implicits.
Arguments M World A : clear implicits.

Declare Scope js_scope.
Delimit Scope js_scope with js.
Notation "x <- m ;; k" := (bind m (fun x => k))
  (at level 61, m at next level, right associativity) : js_scope.
Notation "m ;; k" := (bind m (fun _ => k))
  (at level 61, right associativity) : js_scope.
Local Open Scope js_scope.

(** ** The orchestrator *)

Section Orchestrator.

Context {World : Type}.

(** [groq.chat.completions.create]: resolves to a completion or rejects
    with an error, and moves the world on. *)
Variable create : CompletionRequest -> World -> Outcome ChatCompletion * World.

(** The candidate list; the program runs with [MODELS]. [models[index]] is
    read only below the length of the list, so the default of [nth] never
    shows. *)
Variable models : list string.

(** [await groq.chat.completions.create(request)] *)
Definition await_create (request : CompletionRequest) : M World ChatCompletion :=
  fun st =>
    let (answer, w) := create request (world st) in
    (answer, mkState w (trace st ++ [CreateCall request])%list).

Equations? generateWithFallback (prompt : JsValue) (index : nat)
  : M World Generation by wf (List.length models - index) lt :=
generateWithFallback prompt index with le_lt_dec (List.length models) index := {
  | left _ => throw (new_Error exhaustion_message)
  | right _ =>
      let currentModel := nth index models EmptyString in
      emit (LogAttempt (index + 1) (List.length models) currentModel) ;;
      try_catch
        (chatCompletion <- await_create (completion_request prompt currentModel) ;;
         ret {| result := completion_text chatCompletion;
                used_model := currentModel |})
        (fun error =>
           let status := error_status error in
           emit (WarnFail currentModel status (err_message error)) ;;
           if retryable status
           then emit LogSwitching ;; generateWithFallback prompt (index + 1)
           else throw error) }.
Proof. lia. Qed.

End Orchestrator.

(** ** The request adapter *)

Record HandlerEvent : Type := mkEvent {
  httpMethod : string;
  body : option string
}.

Record Response : Type := mkResponse {
  statusCode : Z;
  headers : list (string * string);
  response_body : string
}.

Definition CORS_HEADERS : list (string * string) :=
  [ ("Access-Control-Allow-Origin", "*");
    ("Access-Control-Allow-Headers", "Content-Type");
    ("Access-Control-Allow-Methods", "POST, OPTIONS") ].

(** *** [JSON.stringify] on objects whose properties are strings

    Strings are byte strings in UTF-8; the bytes that JSON escapes are all
    below 128, so quoting works byte by byte. *)

Definition char (code : nat) : string := String (ascii_of_nat code) EmptyString.

Definition hex_digit (n : nat) : string :=
  match get n "0123456789abcdef" with
  | Some c => String c EmptyString
  | None => EmptyString
  end.

Definition quote_char (c : ascii) : string :=
  let code := nat_of_ascii c in
  if (code =? 8)%nat then "\b"
  else if (code =? 9)%nat then "\t"
  else if (code =? 10)%nat then "\n"
  else if (code =? 12)%nat then "\f"
  else if (code =? 13)%nat then "\r"
  else if (code =? 34)%nat then "\" ++ char 34
  else if (code =? 92)%nat then "\\"
  else if (code <? 32)%nat
       then "\u00" ++ hex_digit (code / 16) ++ hex_digit (code mod 16)
  else String c EmptyString.

Definition quote (s : string) : string :=
  char 34 ++ concat EmptyString (map quote_char (list_ascii_of_string s)) ++ char 34.

Definition JSON_stringify (props : list (string * string)) : string :=
  "{" ++ concat "," (map (fun '(k, v) => quote k ++ ":" ++ quote v) props) ++ "}".

(** The value of the property [prompt] of a value that is neither [null]
    nor [undefined]: an object's own property when it has one, and
    [undefined] otherwise (booleans, numbers, strings and arrays have no
    property of that name). *)
Definition prompt_of (parsed : JsValue) : JsValue :=
  match parsed with
  | JObj props =>
      match lookup "prompt" props with
      | Some v => v
      | None => JUndefined
      end
  | _ => JUndefined
  end.

(** The message of the TypeError that reading a property of [null] or
    [undefined] throws (the wording is Node's). *)
Definition property_of_nullish_message (what key : string) : string :=
  "Cannot read properties of " ++ what ++ " (reading '" ++ key ++ "')".

Section Adapter.

Context {World : Type}.
Variable create : CompletionRequest -> World -> Outcome ChatCompletion * World.

(** [JSON.parse]; [None] when it throws a SyntaxError. *)
Variable JSON_parse : string -> option JsValue.

(** [body.prompt]: reading a property of [null] or [undefined] throws a
    TypeError. *)
Definition get_prompt (parsed : JsValue) : M World JsValue :=
  match parsed with
  | JNull => throw (new_Error (property_of_nullish_message "null" "prompt"))
  | JUndefined =>
      throw (new_Error (property_of_nullish_message "undefined" "prompt"))
  | JBool _ | JNum _ | JStr _ | JArr _ | JObj _ => ret (prompt_of parsed)
  end.

Definition error_response (status : Z) (message : string) : Response :=
  {| statusCode := status;
     headers := CORS_HEADERS;
     response_body := JSON_stringify [("error", message)] |}.

Definition handler (event : HandlerEvent) : M World Response :=
  if httpMethod event =? "OPTIONS" then
    ret {| statusCode := 200; headers := CORS_HEADERS; response_body := "OK" |}
  else if negb (httpMethod event =? "POST") then
    ret (error_response 405 "Method Not Allowed. Use POST.")
  else
    try_catch
      match body event with
      | None => ret (error_response 400 "Request body is empty.")
      | Some text =>
          if text =? EmptyString
          then ret (error_response 400 "Request body is empty.")
          else
            match JSON_parse text with
            | None => ret (error_response 400 "Invalid JSON in request body.")
            | Some parsed =>
                prompt <- get_prompt parsed ;;
                if negb (truthy prompt)
                then ret (error_response 400 "Missing 'prompt' in request body.")
                else
                  generated <- generateWithFallback create MODELS prompt 0 ;;
                  ret {| statusCode := 200;
                         headers := CORS_HEADERS;
                         response_body :=
                           JSON_stringify
                             [("result", result generated);
                              ("used_model", used_model generated)] |}
            end
      end
      (fun error =>
         emit (ErrorCritical error) ;;
         ret {| statusCode := 500;
                headers := CORS_HEADERS;
                response_body :=
                  JSON_stringify
                    [("error", str_or (err_message error) "Internal Server Error");
                     ("details", "Global failure across all available models.")] |}).

End Adapter.

(** ** Vocabulary of the statements *)

(** The provider requests of a trace, in order. *)
Definition calls (tr : list Event) : list CompletionRequest :=
  flat_map (fun ev => match ev with CreateCall r => [r] | _ => [] end) tr.

(** The candidates attempted in a trace, in order. *)
Definition attempted (tr : list Event) : list string := map model (calls tr).

(** The retryable statuses as the specification lists them. *)
Definition spec_retryable (status : Z) : Prop :=
  (status = 400 \/ status = 404 \/ status = 429 \/ 500 <= status <= 599)%Z.

(** An absent or falsy numeric property. *)
Definition falsy_num (a : option Z) : Prop := a = None \/ a = Some 0%Z.

(** A completion without message content: no first choice, a first choice
    without message, or a message whose content is [null]. *)
Inductive NoContent : ChatCompletion -> Prop :=
| no_choice : NoContent (mkCompletion [])
| no_message rest : NoContent (mkCompletion (mkChoice None :: rest))
| null_content rest :
    NoContent (mkCompletion (mkChoice (Some (mkCompletionMessage None)) :: rest)).

(** The events of one failed attempt, up to the decision to switch. *)
Definition failed_attempt (models : list string) (prompt : JsValue)
    (index : nat) (error : JsError) : list Event :=
  let currentModel := nth index models EmptyString in
  [ LogAttempt (index + 1) (List.length models) currentModel;
    CreateCall (completion_request prompt currentModel);
    WarnFail currentModel (error_status error) (err_message error) ].

(** The events of a run of failed attempts that each switch to the next
    candidate, the first of them at [index]. *)
Fixpoint switched_attempts (models : list string) (prompt : JsValue)
    (index : nat) (errors : list JsError) : list Event :=
  match errors with
  | [] => []
  | error :: rest =>
      (failed_attempt models prompt index error ++ [LogSwitching]
       ++ switched_attempts models prompt (index + 1) rest)%list
  end.

(** The events of a successful attempt. *)
Definition successful_attempt (models : list string) (prompt : JsValue)
    (index : nat) : list Event :=
  let currentModel := nth index models EmptyString in
  [ LogAttempt (index + 1) (List.length models) currentModel;
    CreateCall (completion_request prompt currentModel) ].

Section Provider.

Context {World : Type}.
Variable create : CompletionRequest -> World -> Outcome ChatCompletion * World.

(** The provider's answers to a sequence of requests, one after the
    other, and the world it leaves. *)
Fixpoint serve (w : World) (requests : list CompletionRequest)
  : list (Outcome ChatCompletion) * World :=
  match requests with
  | [] => ([], w)
  | request :: rest =>
      let (answer, w1) := create request w in
      let (answers, w2) := serve w1 rest in
      (answer :: answers, w2)
  end.

End Provider.

(** ** Test doubles

    Used to run the program on concrete inputs. *)

(** A provider that plays back a script of answers, one per call, and
    answers 503 once the script is over. *)
Definition scripted (request : CompletionRequest)
    (script : list (Outcome ChatCompletion))
  : Outcome ChatCompletion * list (Outcome ChatCompletion) :=
  match script with
  | answer :: rest => (answer, rest)
  | [] => (Thrown (mkError (Some 503%Z) None (Some "Service Unavailable")), [])
  end.

Definition rate_limited : JsError :=
  mkError (Some 429%Z) None (Some "Rate limit reached").

Definition server_error : JsError :=
  mkError (Some 500%Z) None (Some "Internal error").

Definition unauthorized : JsError :=
  mkError (Some 401%Z) None (Some "Invalid API Key").

Definition connection_error : JsError :=
  mkError None None (Some "Connection error.").

(** An error that carries its status as [statusCode] only. *)
Definition forbidden_by_proxy : JsError :=
  mkError None (Some 403%Z) (Some "Forbidden").

Definition says (text : string) : ChatCompletion :=
  mkCompletion [mkChoice (Some (mkCompletionMessage (Some text)))].

Definition hello_body : string := JSON_stringify [("prompt", "Hello")].

Definition empty_prompt_body : string := JSON_stringify [("prompt", EmptyString)].

(** What [JSON.parse] gives on the request bodies of the examples; every
    other text counts as malformed here. *)
Definition sample_bodies : list (string * option JsValue) :=
  [ ("null", Some JNull);
    ("{}", Some (JObj []));
    (empty_prompt_body, Some (JObj [("prompt", JStr EmptyString)]));
    (hello_body, Some (JObj [("prompt", JStr "Hello")]));
    ("{" ++ quote "prompt" ++ ":0}", Some (JObj [("prompt", JNum 0)]));
    ("{" ++ quote "prompt", None) ].

Definition sample_parse (text : string) : option JsValue :=
  match find (fun entry => fst entry =? text) sample_bodies with
  | Some entry => snd entry
  | None => None
  end.

(** A request that passes the handler's validation with [prompt]: a POST
    whose body is not empty and parses to an object whose [prompt] property
    is truthy. *)
Definition carries_prompt (JSON_parse : string -> option JsValue)
    (event : HandlerEvent) (prompt : JsValue) : Prop :=
  httpMethod event = "POST"
  /\ exists text props,
       body event = Some text
       /\ text <> EmptyString
       /\ JSON_parse text = Some (JObj props)
       /\ lookup "prompt" props = Some prompt
       /\ truthy prompt = true.

(** ** Tactics *)

(** Closes a goal [exists response st', m st = (Returned response, st') /\ _]
    once [m st] has reduced to a returned response. *)
Ltac responds := eexists; eexists; split; reflexivity.

(** * Properties *)

(** ** Status classification *)

Lemma retryable_spec (status : Z) :
  retryable status = true <-> spec_retryable status.
Proof.
  unfold retryable, spec_retryable.
  rewrite !orb_true_iff, andb_true_iff, !Z.eqb_eq, Z.leb_le, Z.ltb_lt.
  lia.
Qed.

Lemma not_retryable_spec (status : Z) :
  retryable status = false <-> ~ spec_retryable status.
Proof.
  rewrite <- retryable_spec. destruct (retryable status); split; congruence.
Qed.

Lemma num_or_falsy (a : option Z) (b : Z) : falsy_num a -> num_or a b = b.
Proof. intros [-> | ->]; reflexivity. Qed.

Lemma num_or_truthy (z b : Z) : z <> 0%Z -> num_or (Some z) b = z.
Proof.
  intros Hz. unfold num_or. destruct (Z.eqb_spec z 0); [contradiction | reflexivity].
Qed.

Lemma falsy_num_dec (a : option Z) :
  falsy_num a \/ exists z, a = Some z /\ z <> 0%Z.
Proof.
  destruct a as [z |]; [| left; left; reflexivity].
  destruct (Z.eq_dec z 0) as [-> | Hz].
  - left; right; reflexivity.
  - right; exists z; split; [reflexivity | assumption].
Qed.

(** ** The text of a completion *)

(** The text of a completion whose first choice has a message with string
    content is that string, whatever the other choices are. *)
Lemma completion_text_content (text : string) (rest : list Choice) :
  completion_text
    (mkCompletion (mkChoice (Some (mkCompletionMessage (Some text))) :: rest)) = text.
Proof.
  unfold completion_text. cbn [choices hd_error choice_message content str_or].
  destruct (String.eqb_spec text EmptyString) as [-> | _]; reflexivity.
Qed.

Lemma completion_text_no_content (completion : ChatCompletion) :
  NoContent completion -> completion_text completion = EmptyString.
Proof. intros []; reflexivity. Qed.

(** ** One attempt of the orchestrator *)

Section OrchestratorFacts.

Context {World : Type}.
Variable create : CompletionRequest -> World -> Outcome ChatCompletion * World.
Variable models : list string.
Variable prompt : JsValue.

Local Abbreviation generate := (generateWithFallback create models prompt).
Local Abbreviation request index :=
  (completion_request prompt (nth index models EmptyString)).

Lemma generate_exhausted (index : nat) (st : State World) :
  List.length models <= index ->
  generate index st = (Thrown (new_Error exhaustion_message), st).
Proof.
  intros Hle. simp generateWithFallback.
  destruct (le_lt_dec (List.length models) index); [reflexivity | lia].
Qed.

Lemma generate_success (index : nat) (st : State World)
    (chatCompletion : ChatCompletion) (w : World) :
  index < List.length models ->
  create (request index) (world st) = (Returned chatCompletion, w) ->
  generate index st =
    (Returned {| result := completion_text chatCompletion;
                 used_model := nth index models EmptyString |},
     mkState w (trace st ++ successful_attempt models prompt index)%list).
Proof.
  intros Hlt Hcreate.
  simp generateWithFallback.
  destruct (le_lt_dec (List.length models) index); [lia |].
  cbn. unfold bind, try_catch, emit, await_create, ret. cbn.
  rewrite Hcreate. unfold successful_attempt.
  rewrite <- app_assoc. reflexivity.
Qed.

Lemma generate_switch (index : nat) (st : State World)
    (error : JsError) (w : World) :
  index < List.length models ->
  create (request index) (world st) = (Thrown error, w) ->
  retryable (error_status error) = true ->
  generate index st =
    generate (index + 1)
      (mkState w (trace st ++ failed_attempt models prompt index error
                           ++ [LogSwitching])%list).
Proof.
  intros Hlt Hcreate Hretry.
  rewrite generateWithFallback_equation_1.
  destruct (le_lt_dec (List.length models) index); [lia |].
  cbn. unfold bind, try_catch, emit, await_create, ret. cbn.
  rewrite Hcreate. cbn. rewrite Hretry. cbn.
  unfold failed_attempt. rewrite <- !app_assoc. reflexivity.
Qed.

Lemma generate_rethrow (index : nat) (st : State World)
    (error : JsError) (w : World) :
  index < List.length models ->
  create (request index) (world st) = (Thrown error, w) ->
  retryable (error_status error) = false ->
  generate index st =
    (Thrown error,
     mkState w (trace st ++ failed_attempt models prompt index error)%list).
Proof.
  intros Hlt Hcreate Hfatal.
  rewrite generateWithFallback_equation_1.
  destruct (le_lt_dec (List.length models) index); [lia |].
  cbn. unfold bind, try_catch, emit, await_create, ret. cbn.
  rewrite Hcreate. cbn. rewrite Hfatal.
  unfold throw, failed_attempt. rewrite <- !app_assoc. reflexivity.
Qed.

End OrchestratorFacts.

(** ** Traces and provider answers *)

Lemma calls_app (tr1 tr2 : list Event) :
  calls (tr1 ++ tr2) = (calls tr1 ++ calls tr2)%list.
Proof. unfold calls. apply flat_map_app. Qed.

Lemma attempted_app (tr1 tr2 : list Event) :
  attempted (tr1 ++ tr2) = (attempted tr1 ++ attempted tr2)%list.
Proof. unfold attempted. rewrite calls_app. apply map_app. Qed.

Lemma skipn_nth_cons {A} (d : A) (l : list A) (n : nat) :
  n < List.length l -> skipn n l = nth n l d :: skipn (S n) l.
Proof.
  revert n. induction l as [| a l IH]; intros n Hn; simpl in Hn; [lia |].
  destruct n as [| n]; [reflexivity |].
  simpl. apply IH. lia.
Qed.

Lemma firstn_snoc_nth {A} (d : A) (l : list A) (n : nat) :
  n < List.length l -> firstn (S n) l = (firstn n l ++ [nth n l d])%list.
Proof.
  revert n. induction l as [| a l IH]; intros n Hn; simpl in Hn; [lia |].
  destruct n as [| n]; [reflexivity |].
  change (firstn (S (S n)) (a :: l)) with (a :: firstn (S n) l).
  rewrite IH by lia. reflexivity.
Qed.

Lemma attempted_switched_attempts (models : list string) (prompt : JsValue)
    (errors : list JsError) :
  forall index,
    index + List.length errors <= List.length models ->
    attempted (switched_attempts models prompt index errors) =
    firstn (List.length errors) (skipn index models).
Proof.
  induction errors as [| error errors IH]; intros index Hlen; [reflexivity |].
  simpl in Hlen.
  rewrite (skipn_nth_cons EmptyString) by lia.
  cbn [switched_attempts List.length firstn].
  rewrite !attempted_app, IH by lia.
  rewrite Nat.add_1_r. reflexivity.
Qed.

Section ProviderFacts.

Context {World : Type}.
Variable create : CompletionRequest -> World -> Outcome ChatCompletion * World.

Lemma serve_length (requests : list CompletionRequest) :
  forall w, List.length (fst (serve create w requests)) = List.length requests.
Proof.
  induction requests as [| request rest IH]; intros w; [reflexivity |].
  simpl. destruct (create request w) as [answer w1].
  specialize (IH w1). destruct (serve create w1 rest) as [answers w2].
  simpl in *. congruence.
Qed.

Lemma serve_snoc (requests : list CompletionRequest) (last : CompletionRequest) :
  forall w answers w2,
    serve create w (requests ++ [last]) = (answers, w2) ->
    exists before answer w1,
      serve create w requests = (before, w1) /\
      create last w1 = (answer, w2) /\
      answers = (before ++ [answer])%list.
Proof.
  induction requests as [| request rest IH]; intros w answers w2 Hserve.
  - simpl in Hserve. destruct (create last w) as [answer w1] eqn:Hlast.
    injection Hserve as <- <-. exists [], answer, w.
    repeat split. exact Hlast.
  - simpl in Hserve. destruct (create request w) as [first w0] eqn:Hfirst.
    destruct (serve create w0 (rest ++ [last])) as [others w3] eqn:Hrest.
    injection Hserve as <- <-.
    destruct (IH _ _ _ Hrest) as (before & answer & w1 & Hbefore & Hlast & ->).
    exists (first :: before), answer, w1. simpl.
    rewrite Hfirst, Hbefore. repeat split. exact Hlast.
Qed.

End ProviderFacts.

(** ** Runs of the orchestrator *)

Section Fallback.

Context {World : Type}.
Variable create : CompletionRequest -> World -> Outcome ChatCompletion * World.
Variable models : list string.
Variable prompt : JsValue.

Local Abbreviation generate := (generateWithFallback create models prompt).

(** A run of retryable failures moves the orchestrator that many
    candidates down the list. *)
Lemma generate_switch_chain (errors : list JsError) :
  forall index st w,
    index + List.length errors <= List.length models ->
    serve create (world st)
      (map (completion_request prompt)
           (firstn (List.length errors) (skipn index models))) =
      (map Thrown errors, w) ->
    Forall (fun error => spec_retryable (error_status error)) errors ->
    generate index st =
      generate (index + List.length errors)
        (mkState w (trace st ++ switched_attempts models prompt index errors)%list).
Proof.
  induction errors as [| error errors IH]; intros index st w Hlen Hserve Hall.
  - simpl in *. injection Hserve as <-.
    rewrite Nat.add_0_r, app_nil_r. destruct st; reflexivity.
  - simpl in Hlen. inversion Hall as [| ? ? Hretry Hrest]; subst.
    rewrite (skipn_nth_cons EmptyString) in Hserve by lia.
    cbn [List.length firstn map serve] in Hserve.
    destruct (create _ (world st)) as [answer w1] eqn:Hcreate.
    destruct (serve create w1 _) as [answers w2] eqn:Htail.
    injection Hserve as -> -> ->.
    rewrite (generate_switch create models prompt index st error w1);
      [| lia | exact Hcreate | apply retryable_spec; exact Hretry ].
    rewrite (IH (index + 1) _ w); cbn [world trace List.length switched_attempts].
    + rewrite <- !app_assoc, <- Nat.add_assoc. reflexivity.
    + lia.
    + rewrite Nat.add_1_r. exact Htail.
    + exact Hrest.
Qed.

End Fallback.

Section FallbackClaims.

Context {World : Type}.
Variable create : CompletionRequest -> World -> Outcome ChatCompletion * World.
Variable models : list string.
Variable prompt : JsValue.

(** C1. Whatever the candidate list and the prompt: when the provider
    answers the requests for candidates 0..k-1 with errors of retryable
    status and the request for candidate k with a completion, the
    orchestrator returns that completion's text with
    [used_model = models[k]]; it has called the provider for exactly the
    candidates 0..k, in list order, and for none after the success. The
    text is the string content of the message of the completion's first
    choice, as the provider sent it. *)
Theorem fallback_returns_first_success
    (k : nat) (errors : list JsError) (completion : ChatCompletion)
    (w w' : World) (tr : list Event) :
  k < List.length models ->
  List.length errors = k ->
  Forall (fun error => spec_retryable (error_status error)) errors ->
  serve create w (map (completion_request prompt) (firstn (S k) models)) =
    (map Thrown errors ++ [Returned completion], w')%list ->
  let tr' := (switched_attempts models prompt 0 errors
              ++ successful_attempt models prompt k)%list in
  generateWithFallback create models prompt 0 (mkState w tr) =
    (Returned {| result := completion_text completion;
                 used_model := nth k models EmptyString |},
     mkState w' (tr ++ tr')%list)
  /\ attempted tr' = firstn (S k) models
  /\ List.length (calls tr') = k + 1
  /\ (forall text rest,
        completion =
          mkCompletion (mkChoice (Some (mkCompletionMessage (Some text))) :: rest) ->
        generateWithFallback create models prompt 0 (mkState w tr) =
          (Returned {| result := text; used_model := nth k models EmptyString |},
           mkState w' (tr ++ tr')%list)).
Proof.
  intros Hk Hlen Hall Hserve tr'.
  rewrite (firstn_snoc_nth EmptyString) in Hserve by exact Hk.
  rewrite map_app in Hserve. cbn [map] in Hserve.
  apply serve_snoc in Hserve.
  destruct Hserve as (before & answer & w1 & Hbefore & Hlast & Heq).
  apply app_inj_tail in Heq. destruct Heq as [<- <-].
  assert (Hattempted : attempted tr' = firstn (S k) models).
  { unfold tr'. rewrite attempted_app, attempted_switched_attempts by (simpl; lia).
    rewrite Hlen. simpl skipn.
    rewrite (firstn_snoc_nth EmptyString) by exact Hk. reflexivity. }
  assert (Hrun :
            generateWithFallback create models prompt 0 (mkState w tr) =
              (Returned {| result := completion_text completion;
                           used_model := nth k models EmptyString |},
               mkState w' (tr ++ tr')%list)).
  { rewrite (generate_switch_chain create models prompt errors 0 (mkState w tr) w1).
    + rewrite Hlen. cbn [Nat.add].
      rewrite (generate_success create models prompt k _ completion w');
        [| exact Hk | exact Hlast ].
      cbn [trace]. unfold tr'. rewrite <- app_assoc. reflexivity.
    + simpl. lia.
    + rewrite Hlen. exact Hbefore.
    + exact Hall. }
  split; [| split; [| split]].
  - exact Hrun.
  - exact Hattempted.
  - assert (Hl : List.length (attempted tr') = List.length (calls tr'))
      by apply length_map.
    rewrite <- Hl, Hattempted, length_firstn. lia.
  - intros text rest ->. rewrite Hrun, completion_text_content. reflexivity.
Qed.

(** C3. Whatever the candidate list and the prompt: when the provider
    answers the request for every candidate with an error of retryable
    status, the orchestrator throws the error whose message is
    [exhaustion_message], after calling the provider exactly once per
    candidate, in list order. *)
Theorem fallback_exhausts_after_all_candidates
    (errors : list JsError) (w w' : World) (tr : list Event) :
  Forall (fun error => spec_retryable (error_status error)) errors ->
  serve create w (map (completion_request prompt) models) = (map Thrown errors, w') ->
  let tr' := switched_attempts models prompt 0 errors in
  generateWithFallback create models prompt 0 (mkState w tr) =
    (Thrown (new_Error exhaustion_message), mkState w' (tr ++ tr')%list)
  /\ err_message (new_Error exhaustion_message) =
       Some "All AI models failed due to rate limits, server errors, or invalid model names."
  /\ attempted tr' = models
  /\ List.length (calls tr') = List.length models.
Proof.
  intros Hall Hserve tr'.
  assert (Hlen : List.length errors = List.length models).
  { pose proof (serve_length create (map (completion_request prompt) models) w) as H.
    rewrite Hserve in H. simpl in H. rewrite !length_map in H. exact H. }
  assert (Hattempted : attempted tr' = models).
  { unfold tr'. rewrite attempted_switched_attempts by (simpl; lia).
    rewrite Hlen. simpl skipn. apply firstn_all. }
  split; [| split; [| split]].
  - rewrite (generate_switch_chain create models prompt errors 0 (mkState w tr) w').
    + rewrite generate_exhausted by (simpl; lia). reflexivity.
    + simpl. lia.
    + rewrite Hlen. simpl skipn. rewrite firstn_all. exact Hserve.
    + exact Hall.
  - reflexivity.
  - exact Hattempted.
  - assert (Hl : List.length (attempted tr') = List.length (calls tr'))
      by apply length_map.
    rewrite <- Hl, Hattempted. reflexivity.
Qed.

(** C5. Whatever candidate is being attempted: when the provider answers
    with a completion that carries no message content (no first choice,
    no message, or null content), the orchestrator returns the empty
    string as text and the attempted candidate as [used_model]; it does
    not throw. *)
Theorem empty_completion_is_success
    (index : nat) (st : State World) (completion : ChatCompletion) (w : World) :
  index < List.length models ->
  create (completion_request prompt (nth index models EmptyString)) (world st) =
    (Returned completion, w) ->
  NoContent completion ->
  generateWithFallback create models prompt index st =
    (Returned {| result := EmptyString;
                 used_model := nth index models EmptyString |},
     mkState w (trace st ++ successful_attempt models prompt index)%list).
Proof.
  intros Hlt Hcreate Hnone.
  rewrite (generate_success create models prompt index st completion w Hlt Hcreate).
  destruct Hnone; reflexivity.
Qed.

End FallbackClaims.

(** ** The shape of every run *)

Section Runs.

Context {World : Type}.
Variable create : CompletionRequest -> World -> Outcome ChatCompletion * World.
Variable models : list string.
Variable prompt : JsValue.

Local Abbreviation generate := (generateWithFallback create models prompt).

(** Every run from [index] extends the trace by attempts on the next [n]
    candidates in list order, and ends in one of three ways: the last of
    them succeeded, the last of them failed with a status that is not
    retryable, or all remaining candidates failed. *)
Lemma generate_run (d : nat) :
  forall index st,
    List.length models - index = d ->
    exists tr' n,
      trace (snd (generate index st)) = (trace st ++ tr')%list /\
      attempted tr' = firstn n (skipn index models) /\
      n <= List.length models - index /\
      match fst (generate index st) with
      | Returned generated =>
          0 < n /\ used_model generated = nth (index + n - 1) models EmptyString
      | Thrown error =>
          (error = new_Error exhaustion_message /\ n = List.length models - index)
          \/ (~ spec_retryable (error_status error) /\ 0 < n)
      end.
Proof.
  induction d as [| d IH]; intros index st Hd.
  - exists [], 0.
    rewrite generate_exhausted by lia. cbn [fst snd].
    rewrite app_nil_r. repeat split; [lia |]. left. split; [reflexivity | lia].
  - assert (Hlt : index < List.length models) by lia.
    destruct (create (completion_request prompt (nth index models EmptyString))
                (world st)) as [[completion | error] w] eqn:Hcreate.
    + exists (successful_attempt models prompt index), 1.
      rewrite (generate_success create models prompt index st completion w Hlt Hcreate).
      cbn [fst snd trace used_model].
      rewrite (skipn_nth_cons EmptyString) by exact Hlt.
      repeat split; [lia | lia |]. f_equal. lia.
    + destruct (retryable (error_status error)) eqn:Hretry.
      * rewrite (generate_switch create models prompt index st error w Hlt Hcreate Hretry).
        destruct (IH (index + 1)
                    (mkState w (trace st ++ failed_attempt models prompt index error
                                         ++ [LogSwitching])%list))
          as (tr' & n & Htrace & Hattempted & Hn & Hend); [lia |].
        exists (failed_attempt models prompt index error ++ [LogSwitching] ++ tr')%list,
               (S n).
        split; [| split; [| split]].
        -- rewrite Htrace. cbn [trace]. rewrite <- !app_assoc. reflexivity.
        -- rewrite !attempted_app, Hattempted.
           rewrite (skipn_nth_cons EmptyString models index) by exact Hlt.
           rewrite Nat.add_1_r. reflexivity.
        -- lia.
        -- destruct (fst (generate (index + 1) _)) as [generated | error'].
           ++ destruct Hend as [Hpos Hused]. split; [lia |].
              rewrite Hused. f_equal. lia.
           ++ destruct Hend as [[-> ->] | [Hfatal Hpos]].
              ** left. split; [reflexivity | lia].
              ** right. split; [exact Hfatal | lia].
      * exists (failed_attempt models prompt index error), 1.
        rewrite (generate_rethrow create models prompt index st error w Hlt Hcreate Hretry).
        cbn [fst snd trace].
        rewrite (skipn_nth_cons EmptyString) by exact Hlt.
        repeat split; [lia |]. right.
        split; [apply not_retryable_spec; exact Hretry | lia].
Qed.

Lemma trace_grows (index : nat) (st : State World) :
  exists tr', trace (snd (generate index st)) = (trace st ++ tr')%list.
Proof.
  destruct (generate_run _ index st eq_refl) as (tr' & n & Htrace & _).
  exists tr'. exact Htrace.
Qed.

Lemma thrown_is_exhaustion_or_fatal (index : nat) (st st' : State World)
    (error : JsError) :
  generate index st = (Thrown error, st') ->
  error = new_Error exhaustion_message \/ ~ spec_retryable (error_status error).
Proof.
  intros Hrun.
  destruct (generate_run _ index st eq_refl) as (tr' & n & _ & _ & _ & Hend).
  rewrite Hrun in Hend. cbn [fst] in Hend. tauto.
Qed.

End Runs.

Lemma MODELS_NoDup : NoDup MODELS.
Proof.
  unfold MODELS.
  repeat (constructor; [simpl; intuition discriminate |]).
  constructor.
Qed.

Lemma NoDup_firstn {A} (n : nat) (l : list A) : NoDup l -> NoDup (firstn n l).
Proof.
  intros Hl. rewrite <- (firstn_skipn n l) in Hl.
  exact (NoDup_app_remove_r _ _ Hl).
Qed.

Lemma Forall_In_firstn {A} (n : nat) (l : list A) :
  Forall (fun a => In a l) (firstn n l).
Proof.
  apply Forall_forall. intros a Ha.
  rewrite <- (firstn_skipn n l). apply in_or_app. left. exact Ha.
Qed.

Lemma error_status_cases (error : JsError) :
  (falsy_num (err_status error) /\ falsy_num (err_statusCode error) /\
   error_status error = 500%Z)
  \/ (exists s, s <> 0%Z /\ error_status error = s /\
        (err_status error = Some s \/
         (falsy_num (err_status error) /\ err_statusCode error = Some s))).
Proof.
  unfold error_status.
  destruct (falsy_num_dec (err_status error)) as [Hs | (s & Hs & Hnz)].
  - rewrite (num_or_falsy _ _ Hs).
    destruct (falsy_num_dec (err_statusCode error)) as [Hc | (s & Hc & Hnz)].
    + left. rewrite (num_or_falsy _ _ Hc). auto.
    + right. exists s. rewrite Hc, (num_or_truthy _ _ Hnz). auto.
  - right. exists s. rewrite Hs, (num_or_truthy _ _ Hnz). auto.
Qed.

Section ClassificationClaims.

Context {World : Type}.
Variable create : CompletionRequest -> World -> Outcome ChatCompletion * World.
Variable models : list string.
Variable prompt : JsValue.

Local Abbreviation generate := (generateWithFallback create models prompt).

(** C2. Whatever error the provider throws at an attempt, the orchestrator
    decides on its status alone, which is [error.status] whenever that is a
    non-zero number. A status in {400, 404, 429} or in 500..599 makes it go
    on with the next candidate, and then the run never ends by throwing an
    error of retryable status other than the exhaustion error. Any other
    status (401, say) makes it rethrow that very error at once: the
    provider is not called again. *)
Theorem status_decides_switch_or_rethrow
    (index : nat) (st : State World) (error : JsError) (w : World) :
  index < List.length models ->
  create (completion_request prompt (nth index models EmptyString)) (world st) =
    (Thrown error, w) ->
  let failed := failed_attempt models prompt index error in
  (spec_retryable (error_status error) ->
     generate index st =
       generate (index + 1) (mkState w (trace st ++ failed ++ [LogSwitching])%list)
     /\ forall error' st',
          generate index st = (Thrown error', st') ->
          error' = new_Error exhaustion_message
          \/ ~ spec_retryable (error_status error'))
  /\ (~ spec_retryable (error_status error) ->
        generate index st = (Thrown error, mkState w (trace st ++ failed)%list)
        /\ attempted failed = [nth index models EmptyString])
  /\ (forall s, err_status error = Some s -> s <> 0%Z -> error_status error = s).
Proof.
  intros Hlt Hcreate failed. split; [| split].
  - intros Hretry. split.
    + apply generate_switch; [exact Hlt | exact Hcreate |].
      apply retryable_spec. exact Hretry.
    + intros error' st' Hrun.
      exact (thrown_is_exhaustion_or_fatal create models prompt index st st' error' Hrun).
  - intros Hfatal. split; [| reflexivity].
    apply generate_rethrow; [exact Hlt | exact Hcreate |].
    apply not_retryable_spec. exact Hfatal.
  - intros s Hs Hnz. unfold error_status. rewrite Hs.
    apply num_or_truthy. exact Hnz.
Qed.

(** C9. When the error thrown at an attempt has neither a truthy [status]
    nor a truthy [statusCode], the orchestrator takes its status to be 500
    and goes on with the next candidate. It rethrows the error at that
    attempt only when the error carries a non-zero status ([status], or
    [statusCode] when [status] is absent or zero) outside {400, 404, 429}
    and outside 500..599. *)
Theorem missing_status_counts_as_500
    (index : nat) (st : State World) (error : JsError) (w : World) :
  index < List.length models ->
  create (completion_request prompt (nth index models EmptyString)) (world st) =
    (Thrown error, w) ->
  let failed := failed_attempt models prompt index error in
  (falsy_num (err_status error) -> falsy_num (err_statusCode error) ->
     error_status error = 500%Z
     /\ generate index st =
          generate (index + 1)
            (mkState w (trace st ++ failed ++ [LogSwitching])%list))
  /\ (generate index st = (Thrown error, mkState w (trace st ++ failed)%list) ->
        exists s,
          s <> 0%Z
          /\ (err_status error = Some s
              \/ (falsy_num (err_status error) /\ err_statusCode error = Some s))
          /\ ~ spec_retryable s).
Proof.
  intros Hlt Hcreate failed. split.
  - intros Hstatus Hcode.
    assert (H500 : error_status error = 500%Z).
    { unfold error_status. rewrite (num_or_falsy _ _ Hstatus).
      apply num_or_falsy. exact Hcode. }
    split; [exact H500 |].
    apply generate_switch; [exact Hlt | exact Hcreate |].
    rewrite H500. reflexivity.
  - intros Hrun.
    assert (Hfatal : retryable (error_status error) = false).
    { destruct (retryable (error_status error)) eqn:Hretry; [| reflexivity].
      exfalso.
      rewrite (generate_switch create models prompt index st error w Hlt Hcreate Hretry)
        in Hrun.
      destruct (trace_grows create models prompt (index + 1)
                  (mkState w (trace st ++ failed_attempt models prompt index error
                                       ++ [LogSwitching])%list))
        as (tr' & Htrace).
      rewrite Hrun in Htrace. cbn [snd trace] in Htrace.
      apply (f_equal (@List.length Event)) in Htrace.
      fold failed in Htrace. rewrite !length_app in Htrace. simpl in Htrace. lia. }
    destruct (error_status_cases error)
      as [(_ & _ & H500) | (s & Hnz & Hs & Hcarried)].
    + rewrite H500 in Hfatal. discriminate.
    + exists s. split; [exact Hnz |]. split; [exact Hcarried |].
      apply not_retryable_spec. rewrite <- Hs. exact Hfatal.
Qed.

End ClassificationClaims.

(** C4. Whatever the prompt and whatever the provider does, the candidates
    a run of the orchestrator calls the provider for are the first [n]
    entries of [MODELS], in list order from index 0; so each of them is in
    the list and none is called twice. *)
Theorem attempts_follow_the_list
    {World : Type}
    (create : CompletionRequest -> World -> Outcome ChatCompletion * World)
    (prompt : JsValue) (st : State World) :
  exists tr' n,
    trace (snd (generateWithFallback create MODELS prompt 0 st))
      = (trace st ++ tr')%list
    /\ n <= List.length MODELS
    /\ attempted tr' = firstn n MODELS
    /\ Forall (fun candidate => In candidate MODELS) (attempted tr')
    /\ NoDup (attempted tr').
Proof.
  destruct (generate_run create MODELS prompt _ 0 st eq_refl)
    as (tr' & n & Htrace & Hattempted & Hn & _).
  exists tr', n. simpl skipn in Hattempted. rewrite Hattempted.
  split; [exact Htrace |]. split; [lia |]. split; [reflexivity |].
  split; [apply Forall_In_firstn | apply NoDup_firstn, MODELS_NoDup].
Qed.

(** ** The request adapter *)

Lemma str_or_cases (a : option string) (b : string) :
  (exists s, a = Some s /\ s <> EmptyString /\ str_or a b = s)
  \/ ((a = None \/ a = Some EmptyString) /\ str_or a b = b).
Proof.
  destruct a as [s |]; [| right; auto].
  unfold str_or. destruct (String.eqb_spec s EmptyString) as [-> | Hs].
  - right; auto.
  - left. exists s. auto.
Qed.

Section AdapterFacts.

Context {World : Type}.
Variable create : CompletionRequest -> World -> Outcome ChatCompletion * World.
Variable JSON_parse : string -> option JsValue.

Local Abbreviation handle := (handler create JSON_parse).

Lemma handler_options (event : HandlerEvent) (st : State World) :
  httpMethod event = "OPTIONS" ->
  handle event st =
    (Returned {| statusCode := 200; headers := CORS_HEADERS; response_body := "OK" |},
     st).
Proof.
  intros Hm. unfold handler. rewrite Hm. reflexivity.
Qed.

Lemma handler_method_not_allowed (event : HandlerEvent) (st : State World) :
  httpMethod event <> "OPTIONS" ->
  httpMethod event <> "POST" ->
  handle event st =
    (Returned (error_response 405 "Method Not Allowed. Use POST."), st).
Proof.
  intros Hopt Hpost. unfold handler.
  destruct (String.eqb_spec (httpMethod event) "OPTIONS"); [contradiction |].
  destruct (String.eqb_spec (httpMethod event) "POST"); [contradiction |].
  reflexivity.
Qed.

Lemma handler_empty_body (event : HandlerEvent) (st : State World) :
  httpMethod event = "POST" ->
  body event = None \/ body event = Some EmptyString ->
  handle event st = (Returned (error_response 400 "Request body is empty."), st).
Proof.
  intros Hm Hbody. unfold handler. rewrite Hm. cbn.
  destruct Hbody as [-> | ->]; reflexivity.
Qed.

(** A POST with a body: what is left of the handler once the method and
    the presence of the body are checked. *)
Lemma handler_post_body (event : HandlerEvent) (text : string) (st : State World) :
  httpMethod event = "POST" ->
  body event = Some text ->
  text <> EmptyString ->
  handle event st =
    try_catch
      match JSON_parse text with
      | None => ret (error_response 400 "Invalid JSON in request body.")
      | Some parsed =>
          prompt <- get_prompt parsed ;;
          if negb (truthy prompt)
          then ret (error_response 400 "Missing 'prompt' in request body.")
          else
            generated <- generateWithFallback create MODELS prompt 0 ;;
            ret {| statusCode := 200;
                   headers := CORS_HEADERS;
                   response_body :=
                     JSON_stringify
                       [("result", result generated);
                        ("used_model", used_model generated)] |}
      end
      (fun error =>
         emit (ErrorCritical error) ;;
         ret {| statusCode := 500;
                headers := CORS_HEADERS;
                response_body :=
                  JSON_stringify
                    [("error", str_or (err_message error) "Internal Server Error");
                     ("details", "Global failure across all available models.")] |})
      st.
Proof.
  intros Hm Hbody Htext. unfold handler. rewrite Hm, Hbody. cbn.
  destruct (String.eqb_spec text EmptyString); [contradiction | reflexivity].
Qed.

Lemma handler_invalid_json (event : HandlerEvent) (text : string) (st : State World) :
  httpMethod event = "POST" ->
  body event = Some text ->
  text <> EmptyString ->
  JSON_parse text = None ->
  handle event st =
    (Returned (error_response 400 "Invalid JSON in request body."), st).
Proof.
  intros Hm Hbody Htext Hparse.
  rewrite (handler_post_body event text st Hm Hbody Htext), Hparse. reflexivity.
Qed.

Lemma handler_missing_prompt (event : HandlerEvent) (text : string)
    (parsed : JsValue) (st : State World) :
  httpMethod event = "POST" ->
  body event = Some text ->
  text <> EmptyString ->
  JSON_parse text = Some parsed ->
  parsed <> JNull ->
  parsed <> JUndefined ->
  truthy (prompt_of parsed) = false ->
  handle event st =
    (Returned (error_response 400 "Missing 'prompt' in request body."), st).
Proof.
  intros Hm Hbody Htext Hparse Hnull Hundef Hfalsy.
  rewrite (handler_post_body event text st Hm Hbody Htext), Hparse.
  destruct parsed; try contradiction; cbn in Hfalsy |- *;
    unfold try_catch, bind, ret; cbn; try reflexivity.
  rewrite Hfalsy. reflexivity.
Qed.

Lemma handler_null_body (event : HandlerEvent) (text : string) (st : State World) :
  httpMethod event = "POST" ->
  body event = Some text ->
  text <> EmptyString ->
  JSON_parse text = Some JNull ->
  let error := new_Error (property_of_nullish_message "null" "prompt") in
  handle event st =
    (Returned
       {| statusCode := 500;
          headers := CORS_HEADERS;
          response_body :=
            JSON_stringify
              [("error", "Cannot read properties of null (reading 'prompt')");
               ("details", "Global failure across all available models.")] |},
     mkState (world st) (trace st ++ [ErrorCritical error])%list).
Proof.
  intros Hm Hbody Htext Hparse error.
  rewrite (handler_post_body event text st Hm Hbody Htext), Hparse.
  reflexivity.
Qed.

Lemma handler_calls_orchestrator (event : HandlerEvent) (text : string)
    (props : list (string * JsValue)) (prompt : JsValue) (st : State World) :
  httpMethod event = "POST" ->
  body event = Some text ->
  text <> EmptyString ->
  JSON_parse text = Some (JObj props) ->
  lookup "prompt" props = Some prompt ->
  truthy prompt = true ->
  handle event st =
    match generateWithFallback create MODELS prompt 0 st with
    | (Returned generated, st') =>
        (Returned
           {| statusCode := 200;
              headers := CORS_HEADERS;
              response_body :=
                JSON_stringify
                  [("result", result generated);
                   ("used_model", used_model generated)] |},
         st')
    | (Thrown error, st') =>
        (Returned
           {| statusCode := 500;
              headers := CORS_HEADERS;
              response_body :=
                JSON_stringify
                  [("error", str_or (err_message error) "Internal Server Error");
                   ("details", "Global failure across all available models.")] |},
         mkState (world st') (trace st' ++ [ErrorCritical error])%list)
    end.
Proof.
  intros Hm Hbody Htext Hparse Hlookup Htruthy.
  rewrite (handler_post_body event text st Hm Hbody Htext), Hparse.
  unfold get_prompt, prompt_of. rewrite Hlookup.
  unfold try_catch, bind, ret, emit. cbn. rewrite Htruthy. cbn.
  destruct (generateWithFallback create MODELS prompt 0 st) as [[generated | error] st'];
    reflexivity.
Qed.

End AdapterFacts.

Section AdapterClaims.

Context {World : Type}.
Variable create : CompletionRequest -> World -> Outcome ChatCompletion * World.
Variable JSON_parse : string -> option JsValue.

(** C6. For a POST whose body carries a truthy prompt, the handler turns
    the outcome of the orchestrator into one response. When the
    orchestrator returns, the status is 200 and the body is the JSON object
    of [result] and [used_model]. When it throws (the exhaustion error or a
    rethrown provider error), the status is 500 and the body is the JSON
    object of [error], the thrown error's message if it has a non-empty one
    and "Internal Server Error" if not, and of [details], always "Global
    failure across all available models.". *)
Theorem outcome_maps_to_one_envelope
    (event : HandlerEvent) (text : string) (props : list (string * JsValue))
    (prompt : JsValue) (st : State World) :
  httpMethod event = "POST" ->
  body event = Some text ->
  text <> EmptyString ->
  JSON_parse text = Some (JObj props) ->
  lookup "prompt" props = Some prompt ->
  truthy prompt = true ->
  match generateWithFallback create MODELS prompt 0 st with
  | (Returned generated, st') =>
      handler create JSON_parse event st =
        (Returned
           {| statusCode := 200;
              headers := CORS_HEADERS;
              response_body :=
                JSON_stringify
                  [("result", result generated);
                   ("used_model", used_model generated)] |},
         st')
  | (Thrown error, st') =>
      exists message,
        handler create JSON_parse event st =
          (Returned
             {| statusCode := 500;
                headers := CORS_HEADERS;
                response_body :=
                  JSON_stringify
                    [("error", message);
                     ("details", "Global failure across all available models.")] |},
           mkState (world st') (trace st' ++ [ErrorCritical error])%list)
        /\ ((exists m, err_message error = Some m /\ m <> EmptyString /\ message = m)
            \/ ((err_message error = None \/ err_message error = Some EmptyString)
                /\ message = "Internal Server Error"))
  end.
Proof.
  intros Hm Hbody Htext Hparse Hlookup Htruthy.
  rewrite (handler_calls_orchestrator create JSON_parse event text props prompt st
             Hm Hbody Htext Hparse Hlookup Htruthy).
  destruct (generateWithFallback create MODELS prompt 0 st)
    as [[generated | error] st']; [reflexivity |].
  exists (str_or (err_message error) "Internal Server Error").
  split; [reflexivity |].
  destruct (str_or_cases (err_message error) "Internal Server Error")
    as [(m & Hmsg & Hne & Heq) | [Hnone Heq]].
  - left. exists m. rewrite Heq. auto.
  - right. auto.
Qed.

(** C7, on the body [null]. A POST whose body is the JSON text [null]
    parses, and has no prompt; the handler answers it with status 500 and
    the message of a TypeError, not with status 400 and "Missing 'prompt'
    in request body.". *)
Theorem null_body_is_answered_500 (st : State World) :
  JSON_parse "null" = Some JNull ->
  exists response st',
    handler create JSON_parse (mkEvent "POST" (Some "null")) st = (Returned response, st')
    /\ statusCode response = 500%Z
    /\ response_body response =
         JSON_stringify
           [("error", "Cannot read properties of null (reading 'prompt')");
            ("details", "Global failure across all available models.")]
    /\ response <> error_response 400 "Missing 'prompt' in request body.".
Proof.
  intros Hparse.
  eexists. eexists. split.
  - apply (handler_null_body create JSON_parse (mkEvent "POST" (Some "null")) "null" st);
      [reflexivity | reflexivity | discriminate | exact Hparse].
  - cbn [statusCode response_body]. repeat split. discriminate.
Qed.

(** C8. Whatever the request, the provider and the parser, the handler
    returns a response, and its headers are the three fixed cross-origin
    headers. *)
Theorem every_response_carries_cors_headers
    (event : HandlerEvent) (st : State World) :
  exists response st',
    handler create JSON_parse event st = (Returned response, st')
    /\ headers response =
         [ ("Access-Control-Allow-Origin", "*");
           ("Access-Control-Allow-Headers", "Content-Type");
           ("Access-Control-Allow-Methods", "POST, OPTIONS") ].
Proof.
  unfold handler.
  destruct (httpMethod event =? "OPTIONS"); [responds |].
  destruct (httpMethod event =? "POST"); cbn [negb]; [| responds].
  unfold try_catch, bind, ret, emit.
  destruct (body event) as [text |]; [| responds].
  destruct (text =? EmptyString); [responds |].
  destruct (JSON_parse text) as [parsed |]; [| responds].
  destruct (get_prompt parsed st) as [[prompt | error] st1]; [| responds].
  destruct (truthy prompt); cbn [negb]; [| responds].
  destruct (generateWithFallback create MODELS prompt 0 st1)
    as [[generated | error] st2]; responds.
Qed.

(** C10. A POST whose body parses to an object with a [prompt] property
    bound to the empty string, 0, false or null is answered with status 400
    and "Missing 'prompt' in request body."; the orchestrator is not
    called: the world and the trace are left as they were. *)
Theorem falsy_prompt_is_reported_missing
    (event : HandlerEvent) (text : string) (props : list (string * JsValue))
    (prompt : JsValue) (st : State World) :
  httpMethod event = "POST" ->
  body event = Some text ->
  text <> EmptyString ->
  JSON_parse text = Some (JObj props) ->
  lookup "prompt" props = Some prompt ->
  prompt = JStr EmptyString \/ prompt = JNum 0 \/ prompt = JBool false \/ prompt = JNull ->
  handler create JSON_parse event st =
    (Returned
       {| statusCode := 400;
          headers := CORS_HEADERS;
          response_body := JSON_stringify [("error", "Missing 'prompt' in request body.")] |},
     st).
Proof.
  intros Hm Hbody Htext Hparse Hlookup Hfalsy.
  apply (handler_missing_prompt create JSON_parse event text (JObj props) st
           Hm Hbody Htext Hparse); try discriminate.
  cbn [prompt_of]. rewrite Hlookup.
  destruct Hfalsy as [-> | [-> | [-> | ->]]]; reflexivity.
Qed.

End AdapterClaims.

(** * The program on concrete inputs *)

Lemma fallback_returns_first_success_witness :
  let script := [Thrown rate_limited; Thrown server_error; Returned (says "Hi")] in
  let tr' := (switched_attempts MODELS (JStr "Hello") 0 [rate_limited; server_error]
              ++ successful_attempt MODELS (JStr "Hello") 2)%list in
  generateWithFallback scripted MODELS (JStr "Hello") 0 (mkState script []) =
    (Returned {| result := "Hi"; used_model := "llama-3.3-70b-versatile" |},
     mkState [] tr')
  /\ attempted tr' =
       ["openai/gpt-oss-120b"; "openai/gpt-oss-20b"; "llama-3.3-70b-versatile"]
  /\ List.length (calls tr') = 3.
Proof.
  intros script tr'.
  destruct (fallback_returns_first_success scripted MODELS (JStr "Hello") 2
              [rate_limited; server_error] (says "Hi") script [] [])
    as (_ & Hattempted & Hcalls & Htext).
  - simpl. lia.
  - reflexivity.
  - repeat (apply Forall_cons; [apply retryable_spec; reflexivity |]).
    apply Forall_nil.
  - reflexivity.
  - split; [exact (Htext "Hi" [] eq_refl) |].
    split; [exact Hattempted | exact Hcalls].
Defined.

Lemma status_decides_switch_or_rethrow_witness :
  let script := [Thrown unauthorized; Returned (says "Hi")] in
  generateWithFallback scripted MODELS (JStr "Hello") 0 (mkState script []) =
    (Thrown unauthorized,
     mkState [Returned (says "Hi")]
       [ LogAttempt 1 4 "openai/gpt-oss-120b";
         CreateCall (completion_request (JStr "Hello") "openai/gpt-oss-120b");
         WarnFail "openai/gpt-oss-120b" 401 (Some "Invalid API Key") ]).
Proof.
  intros script.
  apply (status_decides_switch_or_rethrow scripted MODELS (JStr "Hello") 0
           (mkState script []) unauthorized [Returned (says "Hi")]).
  - simpl. lia.
  - reflexivity.
  - apply not_retryable_spec. reflexivity.
Defined.

Lemma fallback_exhausts_after_all_candidates_witness :
  let errors := [server_error; server_error; server_error; server_error] in
  let tr' := switched_attempts MODELS (JStr "Hello") 0 errors in
  generateWithFallback scripted MODELS (JStr "Hello") 0
      (mkState (map Thrown errors) []) =
    (Thrown (new_Error exhaustion_message), mkState [] tr')
  /\ err_message (new_Error exhaustion_message) =
       Some "All AI models failed due to rate limits, server errors, or invalid model names."
  /\ attempted tr' = MODELS
  /\ List.length (calls tr') = 4.
Proof.
  intros errors tr'.
  apply (fallback_exhausts_after_all_candidates scripted MODELS (JStr "Hello")
           errors (map Thrown errors) [] []).
  - repeat (apply Forall_cons; [apply retryable_spec; reflexivity |]).
    apply Forall_nil.
  - reflexivity.
Defined.

Lemma empty_completion_is_success_witness :
  generateWithFallback scripted MODELS (JStr "Hello") 0
      (mkState [Returned (mkCompletion [])] []) =
    (Returned {| result := EmptyString; used_model := "openai/gpt-oss-120b" |},
     mkState []
       [ LogAttempt 1 4 "openai/gpt-oss-120b";
         CreateCall (completion_request (JStr "Hello") "openai/gpt-oss-120b") ]).
Proof.
  apply (empty_completion_is_success scripted MODELS (JStr "Hello") 0
           (mkState [Returned (mkCompletion [])] []) (mkCompletion []) []).
  - simpl. lia.
  - reflexivity.
  - constructor.
Defined.

Lemma missing_status_counts_as_500_witness :
  let script := [Thrown connection_error; Returned (says "Hi")] in
  error_status connection_error = 500%Z
  /\ generateWithFallback scripted MODELS (JStr "Hello") 0 (mkState script []) =
       generateWithFallback scripted MODELS (JStr "Hello") 1
         (mkState [Returned (says "Hi")]
            [ LogAttempt 1 4 "openai/gpt-oss-120b";
              CreateCall (completion_request (JStr "Hello") "openai/gpt-oss-120b");
              WarnFail "openai/gpt-oss-120b" 500 (Some "Connection error.");
              LogSwitching ]).
Proof.
  intros script.
  apply (missing_status_counts_as_500 scripted MODELS (JStr "Hello") 0
           (mkState script []) connection_error [Returned (says "Hi")]).
  - simpl. lia.
  - reflexivity.
  - left. reflexivity.
  - left. reflexivity.
Defined.

Lemma outcome_maps_to_one_envelope_witness :
  let script := [Thrown rate_limited; Returned (says "Hi")] in
  handler scripted sample_parse (mkEvent "POST" (Some hello_body)) (mkState script []) =
    (Returned
       {| statusCode := 200;
          headers := CORS_HEADERS;
          response_body :=
            JSON_stringify [("result", "Hi"); ("used_model", "openai/gpt-oss-20b")] |},
     mkState []
       (switched_attempts MODELS (JStr "Hello") 0 [rate_limited]
        ++ successful_attempt MODELS (JStr "Hello") 1)%list).
Proof.
  intros script.
  pose proof (outcome_maps_to_one_envelope scripted sample_parse
                (mkEvent "POST" (Some hello_body)) hello_body
                [("prompt", JStr "Hello")] (JStr "Hello") (mkState script []))
    as Hresponse.
  vm_compute in Hresponse. vm_compute.
  apply Hresponse; try reflexivity. discriminate.
Defined.

Lemma null_body_is_answered_500_witness :
  exists response st',
    handler scripted sample_parse (mkEvent "POST" (Some "null")) (mkState [] []) =
      (Returned response, st')
    /\ statusCode response = 500%Z
    /\ response_body response =
         JSON_stringify
           [("error", "Cannot read properties of null (reading 'prompt')");
            ("details", "Global failure across all available models.")]
    /\ response <> error_response 400 "Missing 'prompt' in request body.".
Proof.
  apply (null_body_is_answered_500 scripted sample_parse (mkState [] [])).
  reflexivity.
Defined.

Lemma falsy_prompt_is_reported_missing_witness :
  let st := mkState [Returned (says "Hi")] [] in
  handler scripted sample_parse (mkEvent "POST" (Some empty_prompt_body)) st =
    (Returned
       {| statusCode := 400;
          headers := CORS_HEADERS;
          response_body := JSON_stringify [("error", "Missing 'prompt' in request body.")] |},
     st).
Proof.
  intros st.
  apply (falsy_prompt_is_reported_missing scripted sample_parse
           (mkEvent "POST" (Some empty_prompt_body)) empty_prompt_body
           [("prompt", JStr EmptyString)] (JStr EmptyString) st).
  - reflexivity.
  - reflexivity.
  - discriminate.
  - reflexivity.
  - reflexivity.
  - left. reflexivity.
Defined.

(** ** The decision table of the handler on sample requests *)

Example json_text_of_an_error :
  JSON_stringify [("error", "Request body is empty.")] =
  "{" ++ char 34 ++ "error" ++ char 34 ++ ":"
      ++ char 34 ++ "Request body is empty." ++ char 34 ++ "}".
Proof. reflexivity. Qed.

Example json_text_escapes :
  quote ("a" ++ char 10 ++ char 34 ++ char 1 ++ "\") =
  char 34 ++ "a\n\" ++ char 34 ++ "\u0001\\" ++ char 34.
Proof. reflexivity. Qed.

Example preflight_is_answered_ok :
  handler scripted sample_parse (mkEvent "OPTIONS" (Some "null")) (mkState [] []) =
    (Returned {| statusCode := 200; headers := CORS_HEADERS; response_body := "OK" |},
     mkState [] []).
Proof. reflexivity. Qed.

Example get_is_not_allowed :
  handler scripted sample_parse (mkEvent "GET" None) (mkState [] []) =
    (Returned (error_response 405 "Method Not Allowed. Use POST."), mkState [] []).
Proof. reflexivity. Qed.

Example missing_body_is_rejected :
  handler scripted sample_parse (mkEvent "POST" None) (mkState [] []) =
    (Returned (error_response 400 "Request body is empty."), mkState [] []).
Proof. reflexivity. Qed.

Example malformed_body_is_rejected :
  handler scripted sample_parse (mkEvent "POST" (Some ("{" ++ quote "prompt")))
      (mkState [] []) =
    (Returned (error_response 400 "Invalid JSON in request body."), mkState [] []).
Proof. reflexivity. Qed.

Example empty_object_has_no_prompt :
  handler scripted sample_parse (mkEvent "POST" (Some "{}")) (mkState [] []) =
    (Returned (error_response 400 "Missing 'prompt' in request body."), mkState [] []).
Proof. reflexivity. Qed.

Example unauthorized_is_reported_at_once :
  let script := [Thrown rate_limited; Thrown unauthorized; Returned (says "Hi")] in
  exists st',
    handler scripted sample_parse (mkEvent "POST" (Some hello_body)) (mkState script []) =
      (Returned
         {| statusCode := 500;
            headers := CORS_HEADERS;
            response_body :=
              JSON_stringify
                [("error", "Invalid API Key");
                 ("details", "Global failure across all available models.")] |},
       st')
    /\ world st' = [Returned (says "Hi")]
    /\ attempted (trace st') = ["openai/gpt-oss-120b"; "openai/gpt-oss-20b"].
Proof. eexists. repeat split. Qed.

(** * Further properties of the orchestrator *)

Lemma calls_switched_attempts (models : list string) (prompt : JsValue)
    (errors : list JsError) :
  forall index,
    List.length errors <= List.length models - index ->
    calls (switched_attempts models prompt index errors) =
    map (completion_request prompt)
        (firstn (List.length errors) (skipn index models)).
Proof.
  induction errors as [| error errors IH]; intros index Hlen; [reflexivity |].
  simpl in Hlen.
  rewrite (skipn_nth_cons EmptyString) by lia.
  cbn [switched_attempts List.length firstn map].
  rewrite !calls_app, IH by lia.
  rewrite Nat.add_1_r. reflexivity.
Qed.

Lemma firstn_skipn_snoc {A} (d : A) (l : list A) (index n : nat) :
  index + n < List.length l ->
  firstn (S n) (skipn index l) =
  (firstn n (skipn index l) ++ [nth (index + n) l d])%list.
Proof.
  intros Hlt.
  rewrite (firstn_snoc_nth d) by (rewrite length_skipn; lia).
  rewrite nth_skipn. reflexivity.
Qed.

Section ProviderSequences.

Context {World : Type}.
Variable create : CompletionRequest -> World -> Outcome ChatCompletion * World.

Lemma serve_then_create (requests : list CompletionRequest) :
  forall w answers w1 last answer w2,
    serve create w requests = (answers, w1) ->
    create last w1 = (answer, w2) ->
    serve create w (requests ++ [last]) = (answers ++ [answer], w2)%list.
Proof.
  induction requests as [| request rest IH];
    intros w answers w1 last answer w2 Hserve Hlast.
  - simpl in Hserve. injection Hserve as <- <-. simpl. rewrite Hlast. reflexivity.
  - simpl in Hserve. destruct (create request w) as [first w0] eqn:Hfirst.
    destruct (serve create w0 rest) as [others w3] eqn:Hrest.
    injection Hserve as <- <-.
    simpl. rewrite Hfirst, (IH _ _ _ _ _ _ Hrest Hlast). reflexivity.
Qed.

End ProviderSequences.

Section RunShape.

Context {World : Type}.
Variable create : CompletionRequest -> World -> Outcome ChatCompletion * World.
Variable models : list string.
Variable prompt : JsValue.

Local Abbreviation generate := (generateWithFallback create models prompt).
Local Abbreviation request index :=
  (completion_request prompt (nth index models EmptyString)).

(** Every run from [index] is a sequence of attempts that each failed with
    a retryable status, followed by one of three endings: the list is
    over, the next attempt succeeded, or the next attempt failed with a
    status that is not retryable. *)
Lemma generate_shape (d : nat) :
  forall index st,
    List.length models - index = d ->
    exists errors w1,
      Forall (fun error => spec_retryable (error_status error)) errors
      /\ List.length errors <= List.length models - index
      /\ serve create (world st)
            (map (completion_request prompt)
                 (firstn (List.length errors) (skipn index models))) =
          (map Thrown errors, w1)
      /\ ((List.length models <= index + List.length errors
           /\ generate index st =
                (Thrown (new_Error exhaustion_message),
                 mkState w1
                   (trace st ++ switched_attempts models prompt index errors)%list))
          \/ (index + List.length errors < List.length models
              /\ exists completion w2,
                   create (request (index + List.length errors)) w1 =
                     (Returned completion, w2)
                   /\ generate index st =
                        (Returned
                           {| result := completion_text completion;
                              used_model :=
                                nth (index + List.length errors) models EmptyString |},
                         mkState w2
                           (trace st ++ switched_attempts models prompt index errors
                            ++ successful_attempt models prompt
                                 (index + List.length errors))%list))
          \/ (index + List.length errors < List.length models
              /\ exists error w2,
                   create (request (index + List.length errors)) w1 =
                     (Thrown error, w2)
                   /\ ~ spec_retryable (error_status error)
                   /\ generate index st =
                        (Thrown error,
                         mkState w2
                           (trace st ++ switched_attempts models prompt index errors
                            ++ failed_attempt models prompt
                                 (index + List.length errors) error)%list))).
Proof.
  induction d as [| d IH]; intros index st Hd.
  - exists [], (world st). cbn [List.length firstn map serve switched_attempts].
    rewrite Nat.add_0_r, app_nil_r.
    split; [constructor |]. split; [lia |]. split; [reflexivity |].
    left. split; [lia |].
    rewrite generate_exhausted by lia. destruct st; reflexivity.
  - assert (Hlt : index < List.length models) by lia.
    destruct (create (request index) (world st)) as [[completion | error] w] eqn:Hcreate.
    + exists [], (world st). cbn [List.length firstn map serve switched_attempts].
      rewrite Nat.add_0_r.
      split; [constructor |]. split; [lia |]. split; [reflexivity |].
      right; left. split; [exact Hlt |]. exists completion, w.
      split; [exact Hcreate |].
      apply generate_success; assumption.
    + destruct (retryable (error_status error)) eqn:Hretry.
      * destruct (IH (index + 1)
                    (mkState w (trace st ++ failed_attempt models prompt index error
                                         ++ [LogSwitching])%list))
          as (errors & w1 & Hall & Hlen & Hserve & Hend); [lia |].
        cbn [world trace] in Hserve, Hend.
        exists (error :: errors), w1.
        cbn [List.length switched_attempts].
        replace (index + S (List.length errors))
          with (index + 1 + List.length errors) by lia.
        split; [constructor; [apply retryable_spec; exact Hretry | exact Hall] |].
        split; [lia |].
        split.
        { rewrite (skipn_nth_cons EmptyString models index) by exact Hlt.
          cbn [firstn map serve]. rewrite Hcreate.
          rewrite Nat.add_1_r in Hserve. rewrite Hserve. reflexivity. }
        rewrite (generate_switch create models prompt index st error w Hlt Hcreate Hretry).
        destruct Hend as [[Hover Hrun]
                         | [(Hin & completion & w2 & Hnext & Hrun)
                           | (Hin & error' & w2 & Hnext & Hfatal & Hrun)]];
          rewrite Hrun, <- !app_assoc.
        -- left. split; [exact Hover | reflexivity].
        -- right; left. split; [exact Hin |]. exists completion, w2.
           split; [exact Hnext | reflexivity].
        -- right; right. split; [exact Hin |]. exists error', w2.
           split; [exact Hnext |]. split; [exact Hfatal | reflexivity].
      * exists [], (world st). cbn [List.length firstn map serve switched_attempts].
        rewrite Nat.add_0_r.
        split; [constructor |]. split; [lia |]. split; [reflexivity |].
        right; right. split; [exact Hlt |]. exists error, w.
        split; [exact Hcreate |].
        split; [apply not_retryable_spec; exact Hretry |].
        apply generate_rethrow; assumption.
Qed.

End RunShape.

Lemma attempted_requests (prompt : JsValue) (candidates : list string) :
  map model (map (completion_request prompt) candidates) = candidates.
Proof.
  rewrite map_map. cbn [model completion_request]. apply map_id.
Qed.

Lemma exhaustion_error_is_retryable :
  spec_retryable (error_status (new_Error exhaustion_message)).
Proof. apply retryable_spec. reflexivity. Qed.

Section OrchestratorConverses.

Context {World : Type}.
Variable create : CompletionRequest -> World -> Outcome ChatCompletion * World.
Variable models : list string.
Variable prompt : JsValue.

Local Abbreviation generate := (generateWithFallback create models prompt).

(** X1. A returned generation is exact about its origin: the provider
    answered the requests for some candidates [index .. index+k-1] with
    errors of retryable status and the request for candidate [index+k]
    with a completion; the result is that completion's text (the string
    content of the message of its first choice, and the empty string when
    it has none), [used_model] is [models[index+k]], and no other request
    was made. *)
Theorem success_names_the_answering_candidate
    (index : nat) (st st' : State World) (generated : Generation) :
  generate index st = (Returned generated, st') ->
  exists errors completion,
    Forall (fun error => spec_retryable (error_status error)) errors
    /\ index + List.length errors < List.length models
    /\ serve create (world st)
          (map (completion_request prompt)
               (firstn (S (List.length errors)) (skipn index models))) =
        (map Thrown errors ++ [Returned completion], world st')%list
    /\ generated =
         {| result := completion_text completion;
            used_model := nth (index + List.length errors) models EmptyString |}
    /\ trace st' =
         (trace st ++ switched_attempts models prompt index errors
          ++ successful_attempt models prompt (index + List.length errors))%list
    /\ (forall text rest,
          completion =
            mkCompletion (mkChoice (Some (mkCompletionMessage (Some text))) :: rest) ->
          result generated = text)
    /\ (NoContent completion -> result generated = EmptyString).
Proof.
  intros Hreturned.
  destruct (generate_shape create models prompt _ index st eq_refl)
    as (errors & w1 & Hall & Hlen & Hserve
        & [[_ Hrun]
          | [(Hin & completion & w2 & Hnext & Hrun)
            | (_ & error & w2 & _ & _ & Hrun)]]);
    rewrite Hrun in Hreturned; try discriminate.
  injection Hreturned as <- <-.
  exists errors, completion.
  split; [exact Hall |]. split; [exact Hin |].
  split; [| split; [reflexivity |]; split; [reflexivity |]; split].
  - rewrite (firstn_skipn_snoc EmptyString) by exact Hin.
    rewrite map_app. cbn [map world].
    exact (serve_then_create create _ _ _ _ _ _ _ Hserve Hnext).
  - intros text rest ->. cbn [result]. apply completion_text_content.
  - intros Hnone. cbn [result]. apply completion_text_no_content. exact Hnone.
Qed.

(** X2. The exhaustion error is thrown only after everything was tried:
    when a run from [index] ends with it, the provider answered the
    request for every candidate from [index] to the end of the list, once
    each and in list order, with an error of retryable status. *)
Theorem exhaustion_means_every_candidate_failed
    (index : nat) (st st' : State World) :
  generate index st = (Thrown (new_Error exhaustion_message), st') ->
  exists errors,
    Forall (fun error => spec_retryable (error_status error)) errors
    /\ serve create (world st)
          (map (completion_request prompt) (skipn index models)) =
        (map Thrown errors, world st')
    /\ trace st' = (trace st ++ switched_attempts models prompt index errors)%list
    /\ attempted (switched_attempts models prompt index errors) = skipn index models.
Proof.
  intros Hthrown.
  destruct (generate_shape create models prompt _ index st eq_refl)
    as (errors & w1 & Hall & Hlen & Hserve
        & [[Hover Hrun]
          | [(_ & completion & w2 & _ & Hrun)
            | (_ & error & w2 & _ & Hfatal & Hrun)]]);
    rewrite Hrun in Hthrown; try discriminate.
  - injection Hthrown as <-.
    assert (Hall_tried :
              firstn (List.length errors) (skipn index models) = skipn index models).
    { apply firstn_all2. rewrite length_skipn. lia. }
    exists errors. rewrite Hall_tried in Hserve.
    split; [exact Hall |]. split; [exact Hserve |]. split; [reflexivity |].
    unfold attempted. rewrite calls_switched_attempts by exact Hlen.
    rewrite Hall_tried. apply attempted_requests.
  - injection Hthrown as -> _.
    contradiction Hfatal. exact exhaustion_error_is_retryable.
Qed.

(** X3. An error other than the exhaustion error that a run throws is the
    provider's own: its status is not retryable, the provider threw it in
    answer to the last request of the run, every request before it was
    answered with an error of retryable status, and the candidates after
    it were not tried. *)
Theorem rethrown_error_is_the_last_answer
    (index : nat) (st st' : State World) (error : JsError) :
  generate index st = (Thrown error, st') ->
  error <> new_Error exhaustion_message ->
  ~ spec_retryable (error_status error)
  /\ exists errors,
       Forall (fun error => spec_retryable (error_status error)) errors
       /\ index + List.length errors < List.length models
       /\ serve create (world st)
             (map (completion_request prompt)
                  (firstn (S (List.length errors)) (skipn index models))) =
           (map Thrown errors ++ [Thrown error], world st')%list
       /\ trace st' =
            (trace st ++ switched_attempts models prompt index errors
             ++ failed_attempt models prompt (index + List.length errors) error)%list.
Proof.
  intros Hthrown Hother.
  destruct (generate_shape create models prompt _ index st eq_refl)
    as (errors & w1 & Hall & Hlen & Hserve
        & [[_ Hrun]
          | [(_ & completion & w2 & _ & Hrun)
            | (Hin & error' & w2 & Hnext & Hfatal & Hrun)]]);
    rewrite Hrun in Hthrown; try discriminate.
  - injection Hthrown as <- _. contradiction Hother. reflexivity.
  - injection Hthrown as -> <-.
    split; [exact Hfatal |]. exists errors.
    split; [exact Hall |]. split; [exact Hin |]. split; [| reflexivity].
    rewrite (firstn_skipn_snoc EmptyString) by exact Hin.
    rewrite map_app. cbn [map world].
    exact (serve_then_create create _ _ _ _ _ _ _ Hserve Hnext).
Qed.

(** X4. Whatever the list, the start index and the provider: the requests
    of a run are the requests for the next [n] candidates in list order,
    with [n] at most the number of candidates left, and each of them
    carries the prompt unchanged as its single user message, temperature
    0.8 and at most 4096 tokens. *)
Theorem requests_follow_the_list (index : nat) (st : State World) :
  exists tr' n,
    trace (snd (generate index st)) = (trace st ++ tr')%list
    /\ n <= List.length models - index
    /\ calls tr' =
         map (completion_request prompt) (firstn n (skipn index models))
    /\ Forall (fun request =>
                 messages request = [ {| role := "user"; msg_content := prompt |} ]
                 /\ temperature request = (8 # 10)%Q
                 /\ max_tokens request = 4096%Z)
              (calls tr').
Proof.
  assert (Hfixed : forall candidates,
             Forall (fun request =>
                       messages request = [ {| role := "user"; msg_content := prompt |} ]
                       /\ temperature request = (8 # 10)%Q
                       /\ max_tokens request = 4096%Z)
                    (map (completion_request prompt) candidates)).
  { intros candidates. apply Forall_forall. intros request Hin.
    apply in_map_iff in Hin. destruct Hin as (candidate & <- & _).
    repeat split. }
  destruct (generate_shape create models prompt _ index st eq_refl)
    as (errors & w1 & Hall & Hlen & Hserve
        & [[Hover Hrun]
          | [(Hin & completion & w2 & Hnext & Hrun)
            | (Hin & error & w2 & Hnext & Hfatal & Hrun)]]);
    rewrite Hrun; cbn [snd trace].
  - exists (switched_attempts models prompt index errors), (List.length errors).
    rewrite calls_switched_attempts by exact Hlen.
    repeat split; [exact Hlen | apply Hfixed].
  - exists (switched_attempts models prompt index errors
            ++ successful_attempt models prompt (index + List.length errors))%list,
           (S (List.length errors)).
    assert (Hcalls :
              calls (switched_attempts models prompt index errors
                     ++ successful_attempt models prompt (index + List.length errors)) =
              map (completion_request prompt)
                  (firstn (S (List.length errors)) (skipn index models))).
    { rewrite calls_app, calls_switched_attempts by exact Hlen.
      rewrite (firstn_skipn_snoc EmptyString) by exact Hin.
      rewrite map_app. reflexivity. }
    rewrite Hcalls. repeat split; [lia | apply Hfixed].
  - exists (switched_attempts models prompt index errors
            ++ failed_attempt models prompt (index + List.length errors) error)%list,
           (S (List.length errors)).
    assert (Hcalls :
              calls (switched_attempts models prompt index errors
                     ++ failed_attempt models prompt (index + List.length errors) error) =
              map (completion_request prompt)
                  (firstn (S (List.length errors)) (skipn index models))).
    { rewrite calls_app, calls_switched_attempts by exact Hlen.
      rewrite (firstn_skipn_snoc EmptyString) by exact Hin.
      rewrite map_app. reflexivity. }
    rewrite Hcalls. repeat split; [lia | apply Hfixed].
Qed.

(** X5. When the thrown error has no truthy [status], its [statusCode]
    decides: a non-zero [statusCode] is the status that is logged, a
    retryable one makes the orchestrator go on with the next candidate,
    and any other one makes it rethrow the error without another call. *)
Theorem statusCode_decides_without_status
    (index : nat) (st : State World) (error : JsError) (w : World) (s : Z) :
  index < List.length models ->
  create (completion_request prompt (nth index models EmptyString)) (world st) =
    (Thrown error, w) ->
  falsy_num (err_status error) ->
  err_statusCode error = Some s ->
  s <> 0%Z ->
  let failed :=
    [ LogAttempt (index + 1) (List.length models) (nth index models EmptyString);
      CreateCall (completion_request prompt (nth index models EmptyString));
      WarnFail (nth index models EmptyString) s (err_message error) ] in
  (spec_retryable s ->
     generate index st =
       generate (index + 1) (mkState w (trace st ++ failed ++ [LogSwitching])%list))
  /\ (~ spec_retryable s ->
        generate index st = (Thrown error, mkState w (trace st ++ failed)%list)).
Proof.
  intros Hlt Hcreate Hstatus Hcode Hnz failed.
  assert (Hs : error_status error = s).
  { unfold error_status. rewrite (num_or_falsy _ _ Hstatus), Hcode.
    apply num_or_truthy. exact Hnz. }
  assert (Hfailed : failed = failed_attempt models prompt index error).
  { unfold failed, failed_attempt. rewrite Hs. reflexivity. }
  rewrite Hfailed. split; intros Hclass.
  - apply generate_switch; [exact Hlt | exact Hcreate |].
    rewrite Hs. apply retryable_spec. exact Hclass.
  - apply generate_rethrow; [exact Hlt | exact Hcreate |].
    rewrite Hs. apply not_retryable_spec. exact Hclass.
Qed.

End OrchestratorConverses.

(** * Further properties of the handler *)

Section ForwardRuns.

Context {World : Type}.
Variable create : CompletionRequest -> World -> Outcome ChatCompletion * World.
Variable models : list string.
Variable prompt : JsValue.

Local Abbreviation generate := (generateWithFallback create models prompt).

(** The run from index 0 when the provider's answers to the first
    candidates are retryable errors followed by one more answer. *)
Lemma generate_after_failures (errors : list JsError)
    (answer : Outcome ChatCompletion) (w w' : World) (tr : list Event) :
  List.length errors < List.length models ->
  Forall (fun error => spec_retryable (error_status error)) errors ->
  serve create w
    (map (completion_request prompt) (firstn (S (List.length errors)) models)) =
    (map Thrown errors ++ [answer], w')%list ->
  exists w1,
    create (completion_request prompt (nth (List.length errors) models EmptyString)) w1 =
      (answer, w')
    /\ generate 0 (mkState w tr) =
         generate (List.length errors)
           (mkState w1 (tr ++ switched_attempts models prompt 0 errors)%list).
Proof.
  intros Hlt Hall Hserve.
  rewrite (firstn_snoc_nth EmptyString) in Hserve by exact Hlt.
  rewrite map_app in Hserve. cbn [map] in Hserve.
  apply serve_snoc in Hserve.
  destruct Hserve as (before & last & w1 & Hbefore & Hlast & Heq).
  apply app_inj_tail in Heq. destruct Heq as [<- <-].
  exists w1. split; [exact Hlast |].
  apply (generate_switch_chain create models prompt errors 0 (mkState w tr) w1);
    [simpl; lia | exact Hbefore | exact Hall].
Qed.

End ForwardRuns.

Section HandlerExtras.

Context {World : Type}.
Variable create : CompletionRequest -> World -> Outcome ChatCompletion * World.
Variable JSON_parse : string -> option JsValue.

Local Abbreviation handle := (handler create JSON_parse).

Lemma handler_on_prompt (event : HandlerEvent) (prompt : JsValue) (st : State World) :
  carries_prompt JSON_parse event prompt ->
  handle event st =
    match generateWithFallback create MODELS prompt 0 st with
    | (Returned generated, st') =>
        (Returned
           {| statusCode := 200;
              headers := CORS_HEADERS;
              response_body :=
                JSON_stringify
                  [("result", result generated);
                   ("used_model", used_model generated)] |},
         st')
    | (Thrown error, st') =>
        (Returned
           {| statusCode := 500;
              headers := CORS_HEADERS;
              response_body :=
                JSON_stringify
                  [("error", str_or (err_message error) "Internal Server Error");
                   ("details", "Global failure across all available models.")] |},
         mkState (world st') (trace st' ++ [ErrorCritical error])%list)
    end.
Proof.
  intros (Hm & text & props & Hbody & Htext & Hparse & Hlookup & Htruthy).
  exact (handler_calls_orchestrator create JSON_parse event text props prompt st
           Hm Hbody Htext Hparse Hlookup Htruthy).
Qed.

(** X6. The requests the handler turns down, and how. A preflight gets 200
    and "OK"; any other method than POST gets 405; a POST without body or
    with an empty one, with a body that does not parse, or with a body
    that parses to anything but [null] and has no truthy [prompt] (an
    object without one, a number, a string, a boolean, an array) gets 400
    with a message of its own. None of them reaches the provider or the
    console: the world and the trace stay as they were. *)
Theorem rejected_requests_have_no_effect (event : HandlerEvent) (st : State World) :
  (httpMethod event = "OPTIONS" ->
     handle event st =
       (Returned {| statusCode := 200; headers := CORS_HEADERS; response_body := "OK" |},
        st))
  /\ (httpMethod event <> "OPTIONS" -> httpMethod event <> "POST" ->
        handle event st =
          (Returned
             {| statusCode := 405;
                headers := CORS_HEADERS;
                response_body :=
                  JSON_stringify [("error", "Method Not Allowed. Use POST.")] |},
           st))
  /\ (httpMethod event = "POST" ->
      body event = None \/ body event = Some EmptyString ->
        handle event st =
          (Returned
             {| statusCode := 400;
                headers := CORS_HEADERS;
                response_body :=
                  JSON_stringify [("error", "Request body is empty.")] |},
           st))
  /\ (forall text,
        httpMethod event = "POST" -> body event = Some text -> text <> EmptyString ->
        JSON_parse text = None ->
        handle event st =
          (Returned
             {| statusCode := 400;
                headers := CORS_HEADERS;
                response_body :=
                  JSON_stringify [("error", "Invalid JSON in request body.")] |},
           st))
  /\ (forall text parsed,
        httpMethod event = "POST" -> body event = Some text -> text <> EmptyString ->
        JSON_parse text = Some parsed ->
        parsed <> JNull -> parsed <> JUndefined ->
        truthy (prompt_of parsed) = false ->
        handle event st =
          (Returned
             {| statusCode := 400;
                headers := CORS_HEADERS;
                response_body :=
                  JSON_stringify [("error", "Missing 'prompt' in request body.")] |},
           st)).
Proof.
  split; [| split; [| split; [| split]]].
  - apply handler_options.
  - apply handler_method_not_allowed.
  - apply handler_empty_body.
  - intros text. apply handler_invalid_json.
  - intros text parsed. apply handler_missing_prompt.
Qed.

(** X7. A 200 in answer to a POST is never made up: the body of the
    request parsed to an object with a truthy [prompt], the orchestrator
    returned a generation for that prompt, its [used_model] is one of
    [MODELS], and the response body is the JSON text of that generation. *)
Theorem ok_to_a_post_is_a_generation
    (event : HandlerEvent) (st st' : State World) (response : Response) :
  handle event st = (Returned response, st') ->
  statusCode response = 200%Z ->
  httpMethod event <> "OPTIONS" ->
  exists prompt generated,
    carries_prompt JSON_parse event prompt
    /\ generateWithFallback create MODELS prompt 0 st = (Returned generated, st')
    /\ In (used_model generated) MODELS
    /\ response_body response =
         JSON_stringify
           [("result", result generated); ("used_model", used_model generated)].
Proof.
  intros Hrun Hok Hmethod. unfold handler in Hrun.
  destruct (String.eqb_spec (httpMethod event) "OPTIONS") as [| _]; [contradiction |].
  destruct (String.eqb_spec (httpMethod event) "POST") as [Hpost |]; cbn [negb] in Hrun;
    [| injection Hrun as <- _; discriminate].
  unfold try_catch, bind, ret, emit in Hrun.
  destruct (body event) as [text |] eqn:Hbody; [| injection Hrun as <- _; discriminate].
  destruct (String.eqb_spec text EmptyString) as [| Htext];
    [injection Hrun as <- _; discriminate |].
  destruct (JSON_parse text) as [parsed |] eqn:Hparse;
    [| injection Hrun as <- _; discriminate].
  destruct parsed as [| | b | z | s | items | props]; cbn in Hrun;
    try (injection Hrun as <- _; discriminate).
  destruct (lookup "prompt" props) as [prompt |] eqn:Hlookup;
    [| injection Hrun as <- _; discriminate].
  destruct (truthy prompt) eqn:Htruthy; cbn [negb] in Hrun;
    [| injection Hrun as <- _; discriminate].
  destruct (generateWithFallback create MODELS prompt 0 st)
    as [[generated | error] st1] eqn:Hgenerated;
    [| injection Hrun as <- _; discriminate].
  injection Hrun as <- <-.
  exists prompt, generated.
  split; [split; [exact Hpost |]; exists text, props; auto |].
  split; [exact Hgenerated |]. split; [| reflexivity].
  destruct (generate_run create MODELS prompt _ 0 st eq_refl)
    as (tr' & n & _ & _ & Hn & Hend).
  rewrite Hgenerated in Hend. cbn [fst] in Hend. destruct Hend as [Hpos ->].
  apply nth_In. simpl in Hn |- *. lia.
Qed.

(** X8. A 500 always reports an exception that was caught and logged:
    the last console line is the error, the body carries its message (or
    "Internal Server Error" when it has none) and the fixed details. The
    exception is either the one the orchestrator threw for the prompt of
    the request, or the TypeError of reading [prompt] from a body that
    parsed to [null] (or to [undefined], which [JSON.parse] never gives):
    an error without status whose message is "Cannot read properties of
    null (reading 'prompt')". *)
Theorem server_error_reports_a_caught_exception
    (event : HandlerEvent) (st st' : State World) (response : Response) :
  handle event st = (Returned response, st') ->
  statusCode response = 500%Z ->
  exists error st1,
    st' = mkState (world st1) (trace st1 ++ [ErrorCritical error])%list
    /\ response_body response =
         JSON_stringify
           [("error", str_or (err_message error) "Internal Server Error");
            ("details", "Global failure across all available models.")]
    /\ ((exists prompt,
           carries_prompt JSON_parse event prompt
           /\ generateWithFallback create MODELS prompt 0 st = (Thrown error, st1))
        \/ (exists text parsed,
              httpMethod event = "POST"
              /\ body event = Some text
              /\ JSON_parse text = Some parsed
              /\ ((parsed = JNull
                   /\ error =
                        mkError None None
                          (Some "Cannot read properties of null (reading 'prompt')"))
                  \/ (parsed = JUndefined
                      /\ error =
                           mkError None None
                             (Some "Cannot read properties of undefined (reading 'prompt')")))
              /\ st1 = st)).
Proof.
  intros Hrun Hfailed. unfold handler in Hrun.
  destruct (String.eqb_spec (httpMethod event) "OPTIONS") as [| _];
    [injection Hrun as <- _; discriminate |].
  destruct (String.eqb_spec (httpMethod event) "POST") as [Hpost |]; cbn [negb] in Hrun;
    [| injection Hrun as <- _; discriminate].
  unfold try_catch, bind, ret, emit in Hrun.
  destruct (body event) as [text |] eqn:Hbody; [| injection Hrun as <- _; discriminate].
  destruct (String.eqb_spec text EmptyString) as [| Htext];
    [injection Hrun as <- _; discriminate |].
  destruct (JSON_parse text) as [parsed |] eqn:Hparse;
    [| injection Hrun as <- _; discriminate].
  destruct parsed as [| | b | z | s | items | props]; cbn in Hrun;
    try (injection Hrun as <- _; discriminate).
  - injection Hrun as <- <-.
    exists (mkError None None
              (Some "Cannot read properties of undefined (reading 'prompt')")), st.
    split; [reflexivity |]. split; [reflexivity |].
    right. exists text, JUndefined. auto 8.
  - injection Hrun as <- <-.
    exists (mkError None None
              (Some "Cannot read properties of null (reading 'prompt')")), st.
    split; [reflexivity |]. split; [reflexivity |].
    right. exists text, JNull. auto 8.
  - destruct (lookup "prompt" props) as [prompt |] eqn:Hlookup;
      [| injection Hrun as <- _; discriminate].
    destruct (truthy prompt) eqn:Htruthy; cbn [negb] in Hrun;
      [| injection Hrun as <- _; discriminate].
    destruct (generateWithFallback create MODELS prompt 0 st)
      as [[generated | error] st1] eqn:Hgenerated;
      [injection Hrun as <- _; discriminate |].
    injection Hrun as <- <-. exists error, st1.
    split; [reflexivity |]. split; [reflexivity |].
    left. exists prompt. split; [| exact Hgenerated].
    split; [exact Hpost |]. exists text, props. auto.
Qed.

(** X9. A request that passes validation costs between one and four
    provider calls, whatever the provider answers: the handler calls it
    for the first [n] entries of [MODELS] in order, each time with the
    [prompt] of the body as the single user message, and [1 <= n <= 4]. *)
Theorem valid_post_calls_the_provider
    (event : HandlerEvent) (prompt : JsValue) (st : State World) :
  carries_prompt JSON_parse event prompt ->
  exists tr' n,
    trace (snd (handle event st)) = (trace st ++ tr')%list
    /\ 1 <= n <= 4
    /\ calls tr' = map (completion_request prompt) (firstn n MODELS).
Proof.
  intros Hvalid. rewrite (handler_on_prompt event prompt st Hvalid).
  destruct (generate_shape create MODELS prompt _ 0 st eq_refl)
    as (errors & w1 & Hall & Hlen & Hserve
        & [[Hover Hrun]
          | [(Hin & completion & w2 & Hnext & Hrun)
            | (Hin & error & w2 & Hnext & Hfatal & Hrun)]]);
    rewrite Hrun; cbn [snd trace world]; simpl in Hlen, Hin || simpl in Hlen, Hover.
  - exists (switched_attempts MODELS prompt 0 errors
            ++ [ErrorCritical (new_Error exhaustion_message)])%list,
           (List.length errors).
    rewrite app_assoc, calls_app, calls_switched_attempts by exact Hlen.
    cbn [calls flat_map skipn]. rewrite app_nil_r.
    repeat split; lia.
  - exists (switched_attempts MODELS prompt 0 errors
            ++ successful_attempt MODELS prompt (0 + List.length errors))%list,
           (S (List.length errors)).
    rewrite calls_app, calls_switched_attempts by exact Hlen.
    rewrite (firstn_snoc_nth EmptyString MODELS) by exact Hin.
    rewrite map_app. repeat split; lia.
  - exists (switched_attempts MODELS prompt 0 errors
            ++ failed_attempt MODELS prompt (0 + List.length errors) error
            ++ [ErrorCritical error])%list,
           (S (List.length errors)).
    rewrite !app_assoc, !calls_app, calls_switched_attempts by exact Hlen.
    rewrite (firstn_snoc_nth EmptyString MODELS) by exact Hin.
    rewrite map_app. cbn [calls flat_map skipn]. rewrite app_nil_r.
    repeat split; lia.
Qed.

(** X10. End to end, the fallback is invisible to the client: when the
    provider fails with retryable statuses for the first [k] models and
    answers for the next one, a request that passes validation gets 200
    with that answer's text as [result] (the string content of the message
    of the answer's first choice) and that model as [used_model], and the
    models after it are not called. *)
Theorem post_is_answered_by_the_first_working_model
    (event : HandlerEvent) (prompt : JsValue) (errors : list JsError)
    (completion : ChatCompletion) (w w' : World) (tr : list Event) :
  carries_prompt JSON_parse event prompt ->
  List.length errors < List.length MODELS ->
  Forall (fun error => spec_retryable (error_status error)) errors ->
  serve create w
    (map (completion_request prompt) (firstn (S (List.length errors)) MODELS)) =
    (map Thrown errors ++ [Returned completion], w')%list ->
  handle event (mkState w tr) =
    (Returned
       {| statusCode := 200;
          headers := CORS_HEADERS;
          response_body :=
            JSON_stringify
              [("result", completion_text completion);
               ("used_model", nth (List.length errors) MODELS EmptyString)] |},
     mkState w'
       (tr ++ switched_attempts MODELS prompt 0 errors
        ++ successful_attempt MODELS prompt (List.length errors))%list)
  /\ (forall text rest,
        completion =
          mkCompletion (mkChoice (Some (mkCompletionMessage (Some text))) :: rest) ->
        handle event (mkState w tr) =
          (Returned
             {| statusCode := 200;
                headers := CORS_HEADERS;
                response_body :=
                  JSON_stringify
                    [("result", text);
                     ("used_model", nth (List.length errors) MODELS EmptyString)] |},
           mkState w'
             (tr ++ switched_attempts MODELS prompt 0 errors
              ++ successful_attempt MODELS prompt (List.length errors))%list)).
Proof.
  intros Hvalid Hlt Hall Hserve.
  assert (Hresponse :
            handle event (mkState w tr) =
              (Returned
                 {| statusCode := 200;
                    headers := CORS_HEADERS;
                    response_body :=
                      JSON_stringify
                        [("result", completion_text completion);
                         ("used_model", nth (List.length errors) MODELS EmptyString)] |},
               mkState w'
                 (tr ++ switched_attempts MODELS prompt 0 errors
                  ++ successful_attempt MODELS prompt (List.length errors))%list)).
  { rewrite (handler_on_prompt event prompt _ Hvalid).
    destruct (generate_after_failures create MODELS prompt errors _ w w' tr
                Hlt Hall Hserve) as (w1 & Hlast & ->).
    rewrite (generate_success create MODELS prompt _
               (mkState w1 (tr ++ switched_attempts MODELS prompt 0 errors)%list)
               completion w' Hlt Hlast).
    cbn [trace]. rewrite <- app_assoc. reflexivity. }
  split; [exact Hresponse |].
  intros text rest ->. rewrite Hresponse, completion_text_content. reflexivity.
Qed.

(** X11. End to end, when the provider fails with a retryable status for
    every model, a request that passes validation gets 500 with the
    exhaustion message as [error], after one call per model; the error is
    logged last. *)
Theorem post_fails_when_every_model_fails
    (event : HandlerEvent) (prompt : JsValue) (errors : list JsError)
    (w w' : World) (tr : list Event) :
  carries_prompt JSON_parse event prompt ->
  Forall (fun error => spec_retryable (error_status error)) errors ->
  serve create w (map (completion_request prompt) MODELS) = (map Thrown errors, w') ->
  handle event (mkState w tr) =
    (Returned
       {| statusCode := 500;
          headers := CORS_HEADERS;
          response_body :=
            JSON_stringify
              [("error",
                "All AI models failed due to rate limits, server errors, or invalid model names.");
               ("details", "Global failure across all available models.")] |},
     mkState w'
       (tr ++ switched_attempts MODELS prompt 0 errors
        ++ [ErrorCritical (new_Error exhaustion_message)])%list)
  /\ attempted (switched_attempts MODELS prompt 0 errors) = MODELS.
Proof.
  intros Hvalid Hall Hserve.
  assert (Hlen : List.length errors = List.length MODELS).
  { pose proof (serve_length create (map (completion_request prompt) MODELS) w) as H.
    rewrite Hserve in H. cbn [fst] in H. rewrite !length_map in H. exact H. }
  split.
  - rewrite (handler_on_prompt event prompt _ Hvalid).
    rewrite (generate_switch_chain create MODELS prompt errors 0 (mkState w tr) w');
      [| rewrite Hlen; simpl; lia | rewrite Hlen; exact Hserve | exact Hall].
    rewrite generate_exhausted by (rewrite Hlen; simpl; lia).
    cbn [world trace]. rewrite <- app_assoc. reflexivity.
  - rewrite attempted_switched_attempts by (rewrite Hlen; simpl; lia).
    rewrite Hlen. reflexivity.
Qed.

(** X12. End to end, a status that is not retryable ends the request at
    once: when the provider fails with retryable statuses for the first
    [k] models and with another status for the next one, a request that
    passes validation gets 500 with that error's message as [error]
    ("Internal Server Error" when it has none), and the models after it
    are not called even if they would answer. *)
Theorem post_stops_at_the_first_fatal_error
    (event : HandlerEvent) (prompt : JsValue) (errors : list JsError)
    (error : JsError) (w w' : World) (tr : list Event) :
  carries_prompt JSON_parse event prompt ->
  List.length errors < List.length MODELS ->
  Forall (fun error => spec_retryable (error_status error)) errors ->
  ~ spec_retryable (error_status error) ->
  serve create w
    (map (completion_request prompt) (firstn (S (List.length errors)) MODELS)) =
    (map Thrown errors ++ [Thrown error], w')%list ->
  handle event (mkState w tr) =
    (Returned
       {| statusCode := 500;
          headers := CORS_HEADERS;
          response_body :=
            JSON_stringify
              [("error", str_or (err_message error) "Internal Server Error");
               ("details", "Global failure across all available models.")] |},
     mkState w'
       (tr ++ switched_attempts MODELS prompt 0 errors
        ++ failed_attempt MODELS prompt (List.length errors) error
        ++ [ErrorCritical error])%list).
Proof.
  intros Hvalid Hlt Hall Hfatal Hserve.
  rewrite (handler_on_prompt event prompt _ Hvalid).
  destruct (generate_after_failures create MODELS prompt errors _ w w' tr Hlt Hall Hserve)
    as (w1 & Hlast & ->).
  rewrite (generate_rethrow create MODELS prompt _
             (mkState w1 (tr ++ switched_attempts MODELS prompt 0 errors)%list)
             error w' Hlt Hlast)
    by (apply not_retryable_spec; exact Hfatal).
  cbn [world trace]. rewrite <- !app_assoc. reflexivity.
Qed.

End HandlerExtras.

(** ** The further properties on concrete inputs *)

Lemma hello_carries_prompt :
  carries_prompt sample_parse (mkEvent "POST" (Some hello_body)) (JStr "Hello").
Proof.
  split; [reflexivity |].
  exists hello_body, [("prompt", JStr "Hello")].
  repeat split; try reflexivity. discriminate.
Qed.

Lemma success_names_the_answering_candidate_witness :
  exists errors completion,
    Forall (fun error => spec_retryable (error_status error)) errors
    /\ 0 + List.length errors < List.length MODELS
    /\ serve scripted [Thrown rate_limited; Returned (says "Hi")]
          (map (completion_request (JStr "Hello"))
               (firstn (S (List.length errors)) (skipn 0 MODELS))) =
        (map Thrown errors ++ [Returned completion], [])%list
    /\ {| result := "Hi"; used_model := "openai/gpt-oss-20b" |} =
         {| result := completion_text completion;
            used_model := nth (0 + List.length errors) MODELS EmptyString |}
    /\ (switched_attempts MODELS (JStr "Hello") 0 [rate_limited]
         ++ successful_attempt MODELS (JStr "Hello") 1)%list =
         ([] ++ switched_attempts MODELS (JStr "Hello") 0 errors
          ++ successful_attempt MODELS (JStr "Hello") (0 + List.length errors))%list
    /\ (forall text rest,
          completion =
            mkCompletion (mkChoice (Some (mkCompletionMessage (Some text))) :: rest) ->
          "Hi" = text)
    /\ (NoContent completion -> "Hi" = EmptyString).
Proof.
  apply (success_names_the_answering_candidate scripted MODELS (JStr "Hello") 0
           (mkState [Thrown rate_limited; Returned (says "Hi")] [])
           (mkState []
              (switched_attempts MODELS (JStr "Hello") 0 [rate_limited]
               ++ successful_attempt MODELS (JStr "Hello") 1)%list)
           {| result := "Hi"; used_model := "openai/gpt-oss-20b" |}).
  vm_compute. reflexivity.
Defined.

Lemma exhaustion_means_every_candidate_failed_witness :
  let failures := [server_error; rate_limited; server_error; connection_error] in
  exists errors,
    Forall (fun error => spec_retryable (error_status error)) errors
    /\ serve scripted (map Thrown failures)
          (map (completion_request (JStr "Hello")) (skipn 0 MODELS)) =
        (map Thrown errors, [])
    /\ switched_attempts MODELS (JStr "Hello") 0 failures =
         ([] ++ switched_attempts MODELS (JStr "Hello") 0 errors)%list
    /\ attempted (switched_attempts MODELS (JStr "Hello") 0 errors) = skipn 0 MODELS.
Proof.
  intros failures.
  apply (exhaustion_means_every_candidate_failed scripted MODELS (JStr "Hello") 0
           (mkState (map Thrown failures) [])
           (mkState [] (switched_attempts MODELS (JStr "Hello") 0 failures))).
  vm_compute. reflexivity.
Defined.

Lemma rethrown_error_is_the_last_answer_witness :
  let script := [Thrown rate_limited; Thrown unauthorized; Returned (says "Hi")] in
  ~ spec_retryable (error_status unauthorized)
  /\ exists errors,
       Forall (fun error => spec_retryable (error_status error)) errors
       /\ 0 + List.length errors < List.length MODELS
       /\ serve scripted script
             (map (completion_request (JStr "Hello"))
                  (firstn (S (List.length errors)) (skipn 0 MODELS))) =
           (map Thrown errors ++ [Thrown unauthorized], [Returned (says "Hi")])%list
       /\ (switched_attempts MODELS (JStr "Hello") 0 [rate_limited]
            ++ failed_attempt MODELS (JStr "Hello") 1 unauthorized)%list =
            ([] ++ switched_attempts MODELS (JStr "Hello") 0 errors
             ++ failed_attempt MODELS (JStr "Hello") (0 + List.length errors)
                  unauthorized)%list.
Proof.
  intros script.
  apply (rethrown_error_is_the_last_answer scripted MODELS (JStr "Hello") 0
           (mkState script [])
           (mkState [Returned (says "Hi")]
              (switched_attempts MODELS (JStr "Hello") 0 [rate_limited]
               ++ failed_attempt MODELS (JStr "Hello") 1 unauthorized)%list)
           unauthorized).
  - vm_compute. reflexivity.
  - discriminate.
Defined.

Lemma statusCode_decides_without_status_witness :
  let script := [Thrown forbidden_by_proxy; Returned (says "Hi")] in
  generateWithFallback scripted MODELS (JStr "Hello") 0 (mkState script []) =
    (Thrown forbidden_by_proxy,
     mkState [Returned (says "Hi")]
       [ LogAttempt 1 4 "openai/gpt-oss-120b";
         CreateCall (completion_request (JStr "Hello") "openai/gpt-oss-120b");
         WarnFail "openai/gpt-oss-120b" 403 (Some "Forbidden") ]).
Proof.
  intros script.
  apply (statusCode_decides_without_status scripted MODELS (JStr "Hello") 0
           (mkState script []) forbidden_by_proxy [Returned (says "Hi")] 403%Z).
  - simpl. lia.
  - reflexivity.
  - left. reflexivity.
  - reflexivity.
  - discriminate.
  - apply not_retryable_spec. reflexivity.
Defined.

Lemma rejected_requests_have_no_effect_witness :
  let st := mkState [Returned (says "Hi")] [] in
  handler scripted sample_parse (mkEvent "POST" (Some "{}")) st =
    (Returned
       {| statusCode := 400;
          headers := CORS_HEADERS;
          response_body :=
            JSON_stringify [("error", "Missing 'prompt' in request body.")] |},
     st).
Proof.
  intros st.
  apply (rejected_requests_have_no_effect scripted sample_parse
           (mkEvent "POST" (Some "{}")) st) with (text := "{}") (parsed := JObj []);
    try reflexivity; discriminate.
Defined.

Lemma ok_to_a_post_is_a_generation_witness :
  exists prompt generated,
    carries_prompt sample_parse (mkEvent "POST" (Some hello_body)) prompt
    /\ generateWithFallback scripted MODELS prompt 0
         (mkState [Thrown rate_limited; Returned (says "Hi")] []) =
       (Returned generated,
        mkState []
          (switched_attempts MODELS (JStr "Hello") 0 [rate_limited]
           ++ successful_attempt MODELS (JStr "Hello") 1)%list)
    /\ In (used_model generated) MODELS
    /\ JSON_stringify [("result", "Hi"); ("used_model", "openai/gpt-oss-20b")] =
         JSON_stringify
           [("result", result generated); ("used_model", used_model generated)].
Proof.
  apply (ok_to_a_post_is_a_generation scripted sample_parse
           (mkEvent "POST" (Some hello_body))
           (mkState [Thrown rate_limited; Returned (says "Hi")] [])
           (mkState []
              (switched_attempts MODELS (JStr "Hello") 0 [rate_limited]
               ++ successful_attempt MODELS (JStr "Hello") 1)%list)
           {| statusCode := 200;
              headers := CORS_HEADERS;
              response_body :=
                JSON_stringify [("result", "Hi"); ("used_model", "openai/gpt-oss-20b")] |}).
  - vm_compute. reflexivity.
  - reflexivity.
  - discriminate.
Defined.

Lemma server_error_reports_a_caught_exception_witness :
  let st := mkState [Returned (says "Hi")] [] in
  let thrown := new_Error (property_of_nullish_message "null" "prompt") in
  exists error st1,
    mkState [Returned (says "Hi")] [ErrorCritical thrown] =
      mkState (world st1) (trace st1 ++ [ErrorCritical error])%list
    /\ JSON_stringify
         [("error", "Cannot read properties of null (reading 'prompt')");
          ("details", "Global failure across all available models.")] =
       JSON_stringify
         [("error", str_or (err_message error) "Internal Server Error");
          ("details", "Global failure across all available models.")]
    /\ ((exists prompt,
           carries_prompt sample_parse (mkEvent "POST" (Some "null")) prompt
           /\ generateWithFallback scripted MODELS prompt 0 st = (Thrown error, st1))
        \/ (exists text parsed,
              httpMethod (mkEvent "POST" (Some "null")) = "POST"
              /\ body (mkEvent "POST" (Some "null")) = Some text
              /\ sample_parse text = Some parsed
              /\ ((parsed = JNull
                   /\ error =
                        mkError None None
                          (Some "Cannot read properties of null (reading 'prompt')"))
                  \/ (parsed = JUndefined
                      /\ error =
                           mkError None None
                             (Some "Cannot read properties of undefined (reading 'prompt')")))
              /\ st1 = st)).
Proof.
  intros st thrown.
  apply (server_error_reports_a_caught_exception scripted sample_parse
           (mkEvent "POST" (Some "null")) st
           (mkState [Returned (says "Hi")] [ErrorCritical thrown])
           {| statusCode := 500;
              headers := CORS_HEADERS;
              response_body :=
                JSON_stringify
                  [("error", "Cannot read properties of null (reading 'prompt')");
                   ("details", "Global failure across all available models.")] |}).
  - vm_compute. reflexivity.
  - reflexivity.
Defined.

Lemma valid_post_calls_the_provider_witness :
  let st := mkState [Thrown rate_limited; Returned (says "Hi")] [] in
  exists tr' n,
    trace (snd (handler scripted sample_parse (mkEvent "POST" (Some hello_body)) st)) =
      ([] ++ tr')%list
    /\ 1 <= n <= 4
    /\ calls tr' = map (completion_request (JStr "Hello")) (firstn n MODELS).
Proof.
  intros st.
  apply (valid_post_calls_the_provider scripted sample_parse
           (mkEvent "POST" (Some hello_body)) (JStr "Hello") st).
  exact hello_carries_prompt.
Defined.

Lemma post_is_answered_by_the_first_working_model_witness :
  let script := [Thrown rate_limited; Thrown server_error; Returned (says "Hi")] in
  handler scripted sample_parse (mkEvent "POST" (Some hello_body)) (mkState script []) =
    (Returned
       {| statusCode := 200;
          headers := CORS_HEADERS;
          response_body :=
            JSON_stringify
              [("result", "Hi"); ("used_model", "llama-3.3-70b-versatile")] |},
     mkState []
       (switched_attempts MODELS (JStr "Hello") 0 [rate_limited; server_error]
        ++ successful_attempt MODELS (JStr "Hello") 2)%list).
Proof.
  intros script.
  destruct (post_is_answered_by_the_first_working_model scripted sample_parse
              (mkEvent "POST" (Some hello_body)) (JStr "Hello")
              [rate_limited; server_error] (says "Hi") script [] [])
    as [_ Htext].
  - exact hello_carries_prompt.
  - simpl. lia.
  - repeat (apply Forall_cons; [apply retryable_spec; reflexivity |]).
    apply Forall_nil.
  - reflexivity.
  - exact (Htext "Hi" [] eq_refl).
Defined.

Lemma post_fails_when_every_model_fails_witness :
  let errors := [rate_limited; server_error; connection_error; rate_limited] in
  handler scripted sample_parse (mkEvent "POST" (Some hello_body))
      (mkState (map Thrown errors) []) =
    (Returned
       {| statusCode := 500;
          headers := CORS_HEADERS;
          response_body :=
            JSON_stringify
              [("error",
                "All AI models failed due to rate limits, server errors, or invalid model names.");
               ("details", "Global failure across all available models.")] |},
     mkState []
       (switched_attempts MODELS (JStr "Hello") 0 errors
        ++ [ErrorCritical (new_Error exhaustion_message)])%list)
  /\ attempted (switched_attempts MODELS (JStr "Hello") 0 errors) = MODELS.
Proof.
  intros errors.
  apply (post_fails_when_every_model_fails scripted sample_parse
           (mkEvent "POST" (Some hello_body)) (JStr "Hello") errors
           (map Thrown errors) [] []).
  - exact hello_carries_prompt.
  - repeat (apply Forall_cons; [apply retryable_spec; reflexivity |]).
    apply Forall_nil.
  - reflexivity.
Defined.

Lemma post_stops_at_the_first_fatal_error_witness :
  let script := [Thrown rate_limited; Thrown unauthorized; Returned (says "Hi")] in
  handler scripted sample_parse (mkEvent "POST" (Some hello_body)) (mkState script []) =
    (Returned
       {| statusCode := 500;
          headers := CORS_HEADERS;
          response_body :=
            JSON_stringify
              [("error", "Invalid API Key");
               ("details", "Global failure across all available models.")] |},
     mkState [Returned (says "Hi")]
       (switched_attempts MODELS (JStr "Hello") 0 [rate_limited]
        ++ failed_attempt MODELS (JStr "Hello") 1 unauthorized
        ++ [ErrorCritical unauthorized])%list).
Proof.
  intros script.
  apply (post_stops_at_the_first_fatal_error scripted sample_parse
           (mkEvent "POST" (Some hello_body)) (JStr "Hello")
           [rate_limited] unauthorized script [Returned (says "Hi")] []).
  - exact hello_carries_prompt.
  - simpl. lia.
  - repeat (apply Forall_cons; [apply retryable_spec; reflexivity |]).
    apply Forall_nil.
  - apply not_retryable_spec. reflexivity.
  - reflexivity.
Defined.
